(** * JobTracker: the follow-up reminder rule and the routes around it

    A shallow embedding of
    - the follow-up date effect of the new-application form
      (src/app/applications/page.tsx, the second [useEffect] of
      [NewApplicationPage]),
    - the user-preferences route (GET and PUT),
    - the jobs routes (POST of the collection, PUT of one application),
    together with the part of ECMAScript's [Date] the effect runs on.

    A [Date] holds a time value: milliseconds since 1970-01-01T00:00:00Z,
    or NaN.  The form parses its date strings as UTC ([new Date(s)] on a
    date-only string), moves the day with [getDate]/[setDate], which work
    in the local time of the host, and prints the result with
    [toISOString], which is UTC again.  The host time zone is therefore
    part of the model. *)

From Stdlib Require Import ZArith QArith Lia Bool Ascii String.
From stdpp Require Import base option list gmap strings.

Local Open Scope Z_scope.

(** ** ECMAScript time values (ECMA-262, Date objects) *)

Module EcmaDate.

Definition msPerHour : Z := 3600000.
Definition msPerDay : Z := 86400000.

Definition Day (t : Z) : Z := t / msPerDay.
Definition TimeWithinDay (t : Z) : Z := t mod msPerDay.

Definition isLeapYear (y : Z) : bool :=
  if negb (y mod 4 =? 0) then false
  else if negb (y mod 100 =? 0) then true
  else if negb (y mod 400 =? 0) then false
  else true.

Definition DaysInYear (y : Z) : Z := if isLeapYear y then 366 else 365.

Definition DayFromYear (y : Z) : Z :=
  365 * (y - 1970) + (y - 1969) / 4 - (y - 1901) / 100 + (y - 1601) / 400.

Definition TimeFromYear (y : Z) : Z := msPerDay * DayFromYear y.

(** "The largest integer y such that TimeFromYear(y) <= t".  The mean
    Gregorian year has 146097/400 days, which gives the year up to one;
    the two comparisons settle it (see [YearFromTime_spec]). *)
Definition YearFromTime (t : Z) : Z :=
  let d := Day t in
  let y := 1970 + (400 * d) / 146097 in
  if DayFromYear (y + 1) <=? d then y + 1
  else if DayFromYear y <=? d then y
  else y - 1.

Definition InLeapYear (t : Z) : Z :=
  if isLeapYear (YearFromTime t) then 1 else 0.

Definition DayWithinYear (t : Z) : Z := Day t - DayFromYear (YearFromTime t).

Definition MonthFromTime (t : Z) : Z :=
  let d := DayWithinYear t in
  let l := InLeapYear t in
  if d <? 31 then 0
  else if d <? 59 + l then 1
  else if d <? 90 + l then 2
  else if d <? 120 + l then 3
  else if d <? 151 + l then 4
  else if d <? 181 + l then 5
  else if d <? 212 + l then 6
  else if d <? 243 + l then 7
  else if d <? 273 + l then 8
  else if d <? 304 + l then 9
  else if d <? 334 + l then 10
  else 11.

Definition DateFromTime (t : Z) : Z :=
  let d := DayWithinYear t in
  let l := InLeapYear t in
  match MonthFromTime t with
  | 0 => d + 1
  | 1 => d - 30
  | 2 => d - 58 - l
  | 3 => d - 89 - l
  | 4 => d - 119 - l
  | 5 => d - 150 - l
  | 6 => d - 180 - l
  | 7 => d - 211 - l
  | 8 => d - 242 - l
  | 9 => d - 272 - l
  | 10 => d - 303 - l
  | _ => d - 333 - l
  end.

(** Day within the year of the first day of month [m] (0 = January). *)
Definition monthStart (leap : bool) (m : Z) : Z :=
  let l := if leap then 1 else 0 in
  match m with
  | 0 => 0
  | 1 => 31
  | 2 => 59 + l
  | 3 => 90 + l
  | 4 => 120 + l
  | 5 => 151 + l
  | 6 => 181 + l
  | 7 => 212 + l
  | 8 => 243 + l
  | 9 => 273 + l
  | 10 => 304 + l
  | _ => 334 + l
  end.

Definition DaysInMonth (y m : Z) : Z :=
  match m with
  | 1 => if isLeapYear y then 29 else 28
  | 3 | 5 | 8 | 10 => 30
  | _ => 31
  end.

(** MakeDay: the day number of the first day of month [month] of
    [year] (months beyond 0..11 carry into the year), plus [date - 1]. *)
Definition MakeDay (year month date : Z) : Z :=
  let ym := year + month / 12 in
  let mn := month mod 12 in
  DayFromYear ym + monthStart (isLeapYear ym) mn + date - 1.

Definition MakeDate (day time : Z) : Z := day * msPerDay + time.

(** A time value, or NaN ([None]): what a Date object holds. *)
Definition TimeValue := option Z.

Definition maxTime : Z := 8640000000000000.

Definition TimeClip (time : Z) : TimeValue :=
  if Z.abs time <=? maxTime then Some time else None.

(** The host's time zone: LocalTZA(t, isUTC) is the offset of local time
    from UTC in milliseconds, at the UTC instant [t] when [isUTC], at the
    local time [t] otherwise. *)
Record TimeZone := { LocalTZA : Z -> bool -> Z }.

Definition LocalTime (tz : TimeZone) (t : Z) : Z := t + LocalTZA tz t true.
Definition UTC (tz : TimeZone) (t : Z) : Z := t - LocalTZA tz t false.

(** A zone with one offset all year round. *)
Definition fixedZone (offset : Z) : TimeZone :=
  {| LocalTZA := fun _ _ => offset |}.

Definition utcZone : TimeZone := fixedZone 0.

(** [k] local days after the instant [t] the zone has the offset it has
    at [t]: no change of offset separates the two. *)
Definition sameOffset (tz : TimeZone) (t k : Z) : Prop :=
  LocalTZA tz (LocalTime tz t + k * msPerDay) false = LocalTZA tz t true.

(** By how much the zone's offset at [t] exceeds its offset [k] local days
    later: what the round trip through local time adds to [k] days. *)
Definition zoneDrift (tz : TimeZone) (t k : Z) : Z :=
  LocalTZA tz t true - LocalTZA tz (LocalTime tz t + k * msPerDay) false.

(** Instants of 2024 used by the zone below. *)
Definition utc_2024_03_10_07h : Z := MakeDate (MakeDay 2024 2 10) (7 * msPerHour).
Definition utc_2024_11_03_06h : Z := MakeDate (MakeDay 2024 10 3) (6 * msPerHour).

(** America/New_York during 2024: UTC-5 (EST), and UTC-4 (EDT) from
    2024-03-10 02:00 local (07:00Z) until 2024-11-03 02:00 local (06:00Z).
    A local time skipped or repeated by a transition is read with the
    offset in force before the transition. *)
Definition newYork2024 : TimeZone :=
  {| LocalTZA := fun t isUTC =>
       if isUTC
       then if (utc_2024_03_10_07h <=? t) && (t <? utc_2024_11_03_06h)
            then -4 * msPerHour else -5 * msPerHour
       else if (utc_2024_03_10_07h - 4 * msPerHour <=? t)
               && (t <? utc_2024_11_03_06h - 4 * msPerHour)
            then -4 * msPerHour else -5 * msPerHour |}.

(** *** The Date methods the form uses *)

(** The value of an [<input type="date">], the string YYYY-MM-DD, kept
    as its three numbers (month 1..12). *)
Record DateStr := mkDateStr { ds_year : Z; ds_month : Z; ds_day : Z }.

Definition validDate (s : DateStr) : bool :=
  (0 <=? ds_year s) && (ds_year s <=? 9999)
  && (1 <=? ds_month s) && (ds_month s <=? 12)
  && (1 <=? ds_day s) && (ds_day s <=? DaysInMonth (ds_year s) (ds_month s - 1)).

(** [new Date(s)] on a date-only string: midnight UTC of that day.  A
    string with a field out of range gives an Invalid Date (ECMA-262,
    Date.parse). *)
Definition newDate (s : DateStr) : TimeValue :=
  if validDate s
  then TimeClip (MakeDate (MakeDay (ds_year s) (ds_month s - 1) (ds_day s)) 0)
  else None.

Definition getTime (d : TimeValue) : TimeValue := d.

Definition getDate (tz : TimeZone) (d : TimeValue) : option Z :=
  t ← d; Some (DateFromTime (LocalTime tz t)).

(** [d.setDate(date)]: the new time value of [d]. *)
Definition setDate (tz : TimeZone) (d : TimeValue) (date : option Z) : TimeValue :=
  t ← d; dt ← date;
  let lt := LocalTime tz t in
  let newDate := MakeDate (MakeDay (YearFromTime lt) (MonthFromTime lt) dt)
                          (TimeWithinDay lt) in
  TimeClip (UTC tz newDate).

(** [d.toISOString().split('T')[0]]; [None] stands for the RangeError
    that [toISOString] throws on an Invalid Date. *)
Definition toISODate (d : TimeValue) : option DateStr :=
  t ← d; Some (mkDateStr (YearFromTime t) (MonthFromTime t + 1) (DateFromTime t)).

(** Calendar arithmetic on date strings, for stating results. *)
Definition dayNumber (s : DateStr) : Z :=
  MakeDay (ds_year s) (ds_month s - 1) (ds_day s).

Definition dateOfDay (d : Z) : DateStr :=
  let t := d * msPerDay in
  mkDateStr (YearFromTime t) (MonthFromTime t + 1) (DateFromTime t).

Definition addDays (s : DateStr) (n : Z) : DateStr := dateOfDay (dayNumber s + n).

End EcmaDate.

Import EcmaDate.

(** ** The follow-up date of the new-application form
    (src/app/applications/page.tsx, [NewApplicationPage]) *)

Module FollowUp.

(** What the page keeps of GET /api/user/preferences. *)
Record Preferences := {
  defaultStatus : string;
  defaultFollowUpDays : Z;
}.

(** A JavaScript number that may be NaN. *)
Definition Num := option Z.

Definition num_sub (a b : Num) : Num := x ← a; y ← b; Some (x - y).
Definition num_add (a b : Num) : Num := x ← a; y ← b; Some (x + y).

(** [a <= b]: false as soon as one side is NaN. *)
Definition num_le (a b : Num) : bool :=
  match a, b with
  | Some x, Some y => x <=? y
  | _, _ => false
  end.

(** [Math.ceil(x / (1000 * 60 * 60 * 24))].  Both operands of the
    difference are integers below 2^53 in size, and the form only passes
    whole days, for which the quotient of doubles is exact. *)
Definition ceilDays (x : Num) : Num := v ← x; Some (- ((- v) / msPerDay)).

Definition daysDifference (appliedDate deadlineDate : TimeValue) : Num :=
  ceilDays (num_sub (getTime deadlineDate) (getTime appliedDate)).

(** The body of the effect after its guard: the Date that is printed
    into the field.  [deadlineDate] is [None] for JavaScript's null. *)
Definition followUpDate (tz : TimeZone) (appliedDate : TimeValue)
    (deadlineDate : option TimeValue) (days : Z) : TimeValue :=
  match deadlineDate with
  | Some deadlineDate =>
      if num_le (daysDifference appliedDate deadlineDate) (Some days)
      then
        (* deadline within default reminder days: day before deadline *)
        let followUpDate := deadlineDate in
        setDate tz followUpDate (num_add (getDate tz followUpDate) (Some (-1)))
      else
        let followUpDate := appliedDate in
        setDate tz followUpDate (num_add (getDate tz followUpDate) (Some days))
  | None =>
      let followUpDate := appliedDate in
      setDate tz followUpDate (num_add (getDate tz followUpDate) (Some days))
  end.

(** What one run of the effect does to the form. *)
Inductive Effect :=
| Skipped                       (* the early return *)
| SetFollowUpReminder (value : DateStr)
| RangeError.                   (* toISOString on an Invalid Date *)

(** The effect.  [watchedAppliedDate] and [watchedDeadline] are the two
    watched fields, [None] when empty or not yet set. *)
Definition followUpEffect (tz : TimeZone) (userPreferences : option Preferences)
    (watchedAppliedDate watchedDeadline : option DateStr) : Effect :=
  match userPreferences, watchedAppliedDate with
  | Some prefs, Some applied =>
      let appliedDate := newDate applied in
      let deadlineDate := newDate <$> watchedDeadline in
      match toISODate (followUpDate tz appliedDate deadlineDate
                         (defaultFollowUpDays prefs)) with
      | Some s => SetFollowUpReminder s
      | None => RangeError
      end
  | _, _ => Skipped
  end.

(** The hint under the field (same file, the paragraph after the input),
    for loaded preferences and a non-empty applied date: which of the two
    rules the page tells the user it applied. *)
Inductive Hint := DayBeforeDeadline (days : Num) | DaysAfterApplied (n : Z).

Definition hint (prefs : Preferences) (applied : DateStr) (watchedDeadline : option DateStr)
    : Hint :=
  match watchedDeadline with
  | Some deadline =>
      let d := daysDifference (newDate applied) (newDate deadline) in
      if num_le d (Some (defaultFollowUpDays prefs))
      then DayBeforeDeadline d
      else DaysAfterApplied (defaultFollowUpDays prefs)
  | None => DaysAfterApplied (defaultFollowUpDays prefs)
  end.

(** The preferences a first GET creates. *)
Definition sevenDays : Preferences :=
  {| defaultStatus := "APPLIED"; defaultFollowUpDays := 7 |}.

(** The shift the effect makes: the date it starts from and the number of
    days it moves it by.  The day before the deadline when the deadline is
    at most [n] days after the applied date, [n] days after the applied
    date otherwise and when there is no deadline (section 4.1 of the
    specification, on calendar dates). *)
Definition ruleShift (applied : DateStr) (deadline : option DateStr) (n : Z)
    : DateStr * Z :=
  match deadline with
  | Some deadline =>
      if dayNumber deadline - dayNumber applied <=? n
      then (deadline, -1)
      else (applied, n)
  | None => (applied, n)
  end.

(** The date the specification's rule names. *)
Definition ruleDate (applied : DateStr) (deadline : option DateStr) (n : Z) : DateStr :=
  addDays (fst (ruleShift applied deadline n)) (snd (ruleShift applied deadline n)).

(** The host zone keeps its offset over that shift. *)
Definition offsetKept (tz : TimeZone) (applied : DateStr) (deadline : option DateStr)
    (n : Z) : Prop :=
  sameOffset tz (dayNumber (fst (ruleShift applied deadline n)) * msPerDay)
    (snd (ruleShift applied deadline n)).

End FollowUp.

(** ** JSON values as a route receives them *)

Module Js.

(** A value of a parsed JSON body; [JsUndefined] is a missing key.
    Numbers are rationals (JSON has no NaN).  Arrays and objects carry
    the string their ToPrimitive conversion gives. *)
Inductive Value :=
| JsUndefined
| JsNull
| JsBool (b : bool)
| JsNumber (q : Q)
| JsString (s : string)
| JsObject (prim : string).

Definition truthy (v : Value) : bool :=
  match v with
  | JsUndefined | JsNull => false
  | JsBool b => b
  | JsNumber q => negb (Qeq_bool q 0)
  | JsString s => negb (String.eqb s EmptyString)
  | JsObject _ => true
  end.

(** ToNumber, [None] for NaN.  [strToNum] is StringToNumber. *)
Definition ToNumber (strToNum : string -> option Q) (v : Value) : option Q :=
  match v with
  | JsUndefined => None
  | JsNull => Some 0%Q
  | JsBool b => Some (if b then 1%Q else 0%Q)
  | JsNumber q => Some q
  | JsString s => strToNum s
  | JsObject prim => strToNum prim
  end.

(** [v < k] and [v > k] against a number literal: false on NaN. *)
Definition lt_lit (strToNum : string -> option Q) (v : Value) (k : Q) : bool :=
  match ToNumber strToNum v with
  | Some x => negb (Qle_bool k x)
  | None => false
  end.

Definition gt_lit (strToNum : string -> option Q) (v : Value) (k : Q) : bool :=
  match ToNumber strToNum v with
  | Some x => negb (Qle_bool x k)
  | None => false
  end.

(** [xs.includes(v)] on an array of strings. *)
Definition includes (xs : list string) (v : Value) : bool :=
  match v with
  | JsString s => existsb (String.eqb s) xs
  | _ => false
  end.

End Js.

(** ** The database and the routes *)

Module Db.

Definition Id := nat.

Record User := { user_id : Id; user_email : string }.

Record UserPreferences := {
  pref_userId : Id;
  pref_defaultStatus : string;
  pref_defaultFollowUpDays : Z;
}.

(** The optional text columns of an application, carried as they come. *)
Record Details := {
  location : option string;
  jobUrl : option string;
  salary : option string;
  jobType : option string;
  workLocation : option string;
  priority : option string;
  description : option string;
  requirements : option string;
  notes : option string;
  contactName : option string;
  contactEmail : option string;
  contactPhone : option string;
}.

Record JobApplication := {
  job_id : Id;
  job_userId : Id;
  company : string;
  position : string;
  status : string;
  appliedDate : Z;
  deadline : option Z;
  details : Details;
}.

Record ApplicationEvent := {
  ev_jobApplicationId : Id;
  ev_title : string;
  ev_description : string;
  ev_eventDate : Z;
  ev_eventType : string;
}.

Record Reminder := {
  rem_jobApplicationId : Id;
  rem_title : string;
  rem_description : option string;
  rem_remindAt : Z;
  rem_reminderType : string;
}.

Record Store := {
  users : gmap string User;                 (* findUnique by email *)
  preferences : gmap Id UserPreferences;    (* unique on userId *)
  jobApplications : gmap Id JobApplication;
  applicationEvents : list ApplicationEvent;
  reminders : list Reminder;
  nextId : Id;                              (* the next generated id *)
}.

Definition set_preferences (f : gmap Id UserPreferences -> gmap Id UserPreferences)
    (db : Store) : Store :=
  {| users := users db; preferences := f (preferences db);
     jobApplications := jobApplications db;
     applicationEvents := applicationEvents db;
     reminders := reminders db; nextId := nextId db |}.

Definition set_jobApplications (f : gmap Id JobApplication -> gmap Id JobApplication)
    (db : Store) : Store :=
  {| users := users db; preferences := preferences db;
     jobApplications := f (jobApplications db);
     applicationEvents := applicationEvents db;
     reminders := reminders db; nextId := nextId db |}.

Definition add_event (e : ApplicationEvent) (db : Store) : Store :=
  {| users := users db; preferences := preferences db;
     jobApplications := jobApplications db;
     applicationEvents := applicationEvents db ++ [e];
     reminders := reminders db; nextId := nextId db |}.

Definition add_reminder (r : Reminder) (db : Store) : Store :=
  {| users := users db; preferences := preferences db;
     jobApplications := jobApplications db;
     applicationEvents := applicationEvents db;
     reminders := reminders db ++ [r]; nextId := nextId db |}.

Definition bump_id (db : Store) : Store :=
  {| users := users db; preferences := preferences db;
     jobApplications := jobApplications db;
     applicationEvents := applicationEvents db;
     reminders := reminders db; nextId := S (nextId db) |}.

(** What a route answers: the HTTP status and the JSON it sends. *)
Inductive Json :=
| ErrorJson (error : string)
| PreferencesJson (p : UserPreferences)
| JobJson (j : JobApplication).

Record Response := { res_status : Z; res_json : Json }.

Definition respond (st : Z) (j : Json) : Response :=
  {| res_status := st; res_json := j |}.

(** The session of next-auth, as far as the routes look into it. *)
Record SessionUser := { su_id : option Id; su_email : option string }.
Definition Session := option SessionUser.

Definition session_email (s : Session) : option string :=
  u ← s; e ← su_email u;
  if String.eqb e EmptyString then None else Some e.

Definition session_id (s : Session) : option Id := u ← s; su_id u.

End Db.

(** *** /api/user/preferences (GET and PUT) *)

Module PreferencesRoute.
Import Js Db.

Definition validStatuses : list string :=
  ["APPLIED"; "PHONE_SCREENING"; "TECHNICAL_INTERVIEW"; "ONSITE_INTERVIEW";
   "FINAL_INTERVIEW"; "OFFER"; "REJECTED"; "WITHDRAWN"]%string.

(** Modelled from the spec: prisma/schema.prisma is not among the sources.
    The column [defaultFollowUpDays] holds an integer (section 3 of the
    spec: "a positive integer"), so the client accepts a JavaScript number
    without fraction in the 32-bit range for it, and throws a validation
    error on any other value. *)
Definition prismaInt (v : Value) : option Z :=
  match v with
  | JsNumber q =>
      let r := Qred q in
      if (Z.pos (Qden r) =? 1) && (- 2 ^ 31 <=? Qnum r) && (Qnum r <? 2 ^ 31)
      then Some (Qnum r) else None
  | _ => None
  end.

(** Likewise [defaultStatus] takes a string. *)
Definition prismaString (v : Value) : option string :=
  match v with
  | JsString s => Some s
  | _ => None
  end.

(** [...(v && { key: v })]: the key is there when [v] is truthy.  The
    outer option is the type check of the column. *)
Definition spreadIf {A} (check : Value -> option A) (v : Value) : option (option A) :=
  if truthy v then Some <$> check v else Some None.

(** [prisma.userPreferences.upsert] on the row of [userId]. *)
Definition upsert (userId : Id) (update : option string * option Z)
    (create : UserPreferences) (db : Store) : UserPreferences * Store :=
  let row :=
    match preferences db !! userId with
    | Some p =>
        {| pref_userId := pref_userId p;
           pref_defaultStatus := default (pref_defaultStatus p) (fst update);
           pref_defaultFollowUpDays := default (pref_defaultFollowUpDays p) (snd update) |}
    | None => create
    end in
  (row, set_preferences (insert userId row) db).

Definition GET (session : Session) (db : Store) : Response * Store :=
  match session_email session with
  | None => (respond 401 (ErrorJson "Unauthorized"), db)
  | Some email =>
      match users db !! email with
      | None => (respond 404 (ErrorJson "User not found"), db)
      | Some user =>
          match preferences db !! user_id user with
          | Some preferences => (respond 200 (PreferencesJson preferences), db)
          | None =>
              (* Create default preferences if they don't exist *)
              let preferences :=
                {| pref_userId := user_id user;
                   pref_defaultStatus := "APPLIED";
                   pref_defaultFollowUpDays := 7 |} in
              (respond 200 (PreferencesJson preferences),
               set_preferences (insert (user_id user) preferences) db)
          end
      end
  end.

Definition PUT (strToNum : string -> option Q) (session : Session)
    (defaultStatus defaultFollowUpDays : Value) (db : Store) : Response * Store :=
  match session_email session with
  | None => (respond 401 (ErrorJson "Unauthorized"), db)
  | Some email =>
      match users db !! email with
      | None => (respond 404 (ErrorJson "User not found"), db)
      | Some user =>
          if truthy defaultStatus && negb (includes validStatuses defaultStatus)
          then (respond 400 (ErrorJson "Invalid status"), db)
          else if truthy defaultFollowUpDays
                  && (lt_lit strToNum defaultFollowUpDays 1
                      || gt_lit strToNum defaultFollowUpDays 30)
          then (respond 400 (ErrorJson "Follow-up days must be between 1 and 30"), db)
          else
            match spreadIf prismaString defaultStatus,
                  spreadIf prismaInt defaultFollowUpDays with
            | Some st, Some days =>
                let '(preferences, db') :=
                  upsert (user_id user) (st, days)
                    {| pref_userId := user_id user;
                       pref_defaultStatus := default "APPLIED"%string st;
                       pref_defaultFollowUpDays := default 7 days |} db in
                (respond 200 (PreferencesJson preferences), db')
            | _, _ =>
                (* the client throws, the handler catches *)
                (respond 500 (ErrorJson "Failed to update preferences"), db)
            end
      end
  end.

(** Every stored preference lies in the range the route announces. *)
Definition inRange (db : Store) : Prop :=
  forall userId p,
    preferences db !! userId = Some p -> 1 <= pref_defaultFollowUpDays p <= 30.

(** The record a first GET creates. *)
Definition defaultPreferences (userId : Id) : UserPreferences :=
  {| pref_userId := userId;
     pref_defaultStatus := "APPLIED";
     pref_defaultFollowUpDays := 7 |}.

End PreferencesRoute.

(** *** /api/jobs (POST) and /api/jobs/[id] (PUT) *)

Module JobsRoute.
Import Db.

(** A date field of a request body.  [DfDateTime t] is an ISO date-time
    in UTC, which zod's [datetime()] accepts and [new Date] reads as the
    time value [t]; [DfDate t] is another string [new Date] can read
    (such as a date-only string); [DfGarbage] is a string it cannot. *)
Inductive DateField :=
| DfAbsent
| DfEmpty
| DfDateTime (t : Z)
| DfDate (t : Z)
| DfGarbage.

(** The body both forms send.  A field of another JSON type than string
    fails the schemas like a missing required or malformed one. *)
Record JobBody := {
  b_company : option string;
  b_position : option string;
  b_status : option string;
  b_appliedDate : DateField;
  b_deadline : DateField;
  b_followUpReminder : DateField;
  b_details : Details;
}.

(** zod's [url()] and [email()] checks. *)
Record Validators := { isUrl : string -> bool; isEmail : string -> bool }.

Definition statuses : list string :=
  ["APPLIED"; "PHONE_SCREENING"; "TECHNICAL_INTERVIEW"; "ONSITE_INTERVIEW";
   "FINAL_INTERVIEW"; "OFFER"; "REJECTED"; "WITHDRAWN"]%string.
Definition jobTypes : list string :=
  ["FULL_TIME"; "PART_TIME"; "INTERNSHIP"; "CONTRACT"; "FREELANCE"]%string.
Definition workLocations : list string := ["REMOTE"; "ONSITE"; "HYBRID"]%string.
Definition priorities : list string := ["LOW"; "MEDIUM"; "HIGH"]%string.

Definition nonEmpty (s : string) : bool := negb (String.eqb s EmptyString).

(** [z.enum(vals).optional()] *)
Definition optEnum (vals : list string) (v : option string) : bool :=
  match v with
  | Some s => existsb (String.eqb s) vals
  | None => true
  end.

(** [check().optional().or(z.literal(''))] *)
Definition optOrEmpty (check : string -> bool) (v : option string) : bool :=
  match v with
  | Some s => check s || String.eqb s EmptyString
  | None => true
  end.

Definition detailsOk (V : Validators) (d : Details) : bool :=
  optOrEmpty (isUrl V) (jobUrl d) && optEnum jobTypes (jobType d)
  && optEnum workLocations (workLocation d) && optEnum priorities (priority d)
  && optOrEmpty (isEmail V) (contactEmail d).

(** [z.string().datetime().optional()]: the outer option is the check. *)
Definition optDateTime (f : DateField) : option (option Z) :=
  match f with
  | DfAbsent => Some None
  | DfDateTime t => Some (Some t)
  | _ => None
  end.

Record CreateJobData := {
  cd_company : string;
  cd_position : string;
  cd_status : option string;
  cd_appliedDate : option Z;
  cd_deadline : option Z;
  cd_followUpReminder : option Z;
  cd_details : Details;
}.

(** [createJobSchema.parse(body)]; [None] is the ZodError. *)
Definition createJobSchema (V : Validators) (b : JobBody) : option CreateJobData :=
  company ← b_company b;
  position ← b_position b;
  appliedDate ← optDateTime (b_appliedDate b);
  deadline ← optDateTime (b_deadline b);
  followUpReminder ← optDateTime (b_followUpReminder b);
  if nonEmpty company && nonEmpty position && optEnum statuses (b_status b)
     && detailsOk V (b_details b)
  then Some {| cd_company := company; cd_position := position;
               cd_status := b_status b; cd_appliedDate := appliedDate;
               cd_deadline := deadline; cd_followUpReminder := followUpReminder;
               cd_details := b_details b |}
  else None.

(** POST; [now] is what [new Date()] reads. *)
Definition POST (V : Validators) (now : Z) (session : Session) (body : JobBody)
    (db : Store) : Response * Store :=
  match session_id session with
  | None => (respond 401 (ErrorJson "Unauthorized"), db)
  | Some userId =>
      match createJobSchema V body with
      | None => (respond 400 (ErrorJson "Invalid input"), db)
      | Some data =>
          let jobApplication :=
            {| job_id := nextId db;
               job_userId := userId;
               company := cd_company data;
               position := cd_position data;
               status := default "APPLIED"%string (cd_status data);
               appliedDate := default now (cd_appliedDate data);
               deadline := cd_deadline data;
               details := cd_details data |} in
          let db1 :=
            bump_id (set_jobApplications (insert (nextId db) jobApplication) db) in
          (* Create initial event *)
          let db2 :=
            add_event
              {| ev_jobApplicationId := job_id jobApplication;
                 ev_title := "Application Created";
                 ev_description :=
                   "Applied to " +:+ cd_position data +:+ " at " +:+ cd_company data;
                 ev_eventDate := appliedDate jobApplication;
                 ev_eventType := "status_change" |} db1 in
          (* Create follow-up reminder if provided *)
          let db3 :=
            match cd_followUpReminder data with
            | Some followUpReminder =>
                add_reminder
                  {| rem_jobApplicationId := job_id jobApplication;
                     rem_title := position jobApplication +:+ " application";
                     rem_description := None;
                     rem_remindAt := followUpReminder;
                     rem_reminderType := "follow_up" |} db2
            | None => db2
            end in
          (respond 201 (JobJson jobApplication), db3)
      end
  end.

Record UpdateJobData := {
  ud_company : option string;
  ud_position : option string;
  ud_status : option string;
  ud_appliedDate : DateField;
  ud_deadline : DateField;
  ud_details : Details;
}.

(** [z.string().min(1).optional()] *)
Definition optNonEmpty (v : option string) : bool :=
  match v with
  | Some s => nonEmpty s
  | None => true
  end.

(** [updateJobSchema.parse(body)].  The schema has no [followUpReminder]
    key: the parsed data does not carry that field of the body. *)
Definition updateJobSchema (V : Validators) (b : JobBody) : option UpdateJobData :=
  if optNonEmpty (b_company b) && optNonEmpty (b_position b)
     && optEnum statuses (b_status b) && detailsOk V (b_details b)
  then Some {| ud_company := b_company b; ud_position := b_position b;
               ud_status := b_status b; ud_appliedDate := b_appliedDate b;
               ud_deadline := b_deadline b; ud_details := b_details b |}
  else None.

(** [s ? new Date(s) : undefined] as an update of a date column: the
    outer option fails on an Invalid Date, which the client refuses. *)
Definition dateUpdate (f : DateField) : option (option Z) :=
  match f with
  | DfAbsent | DfEmpty => Some None
  | DfDateTime t | DfDate t => Some (Some t)
  | DfGarbage => None
  end.

Definition orElse {A} (new old : option A) : option A :=
  match new with
  | Some _ => new
  | None => old
  end.

Definition mergeDetails (new old : Details) : Details :=
  {| location := orElse (location new) (location old);
     jobUrl := orElse (jobUrl new) (jobUrl old);
     salary := orElse (salary new) (salary old);
     jobType := orElse (jobType new) (jobType old);
     workLocation := orElse (workLocation new) (workLocation old);
     priority := orElse (priority new) (priority old);
     description := orElse (description new) (description old);
     requirements := orElse (requirements new) (requirements old);
     notes := orElse (notes new) (notes old);
     contactName := orElse (contactName new) (contactName old);
     contactEmail := orElse (contactEmail new) (contactEmail old);
     contactPhone := orElse (contactPhone new) (contactPhone old) |}.

(** [s.replace('_', ' ')]: the first underscore only. *)
Fixpoint replaceUnderscore (s : string) : string :=
  match s with
  | EmptyString => EmptyString
  | String c rest =>
      if Ascii.eqb c "_"%char then String " "%char rest
      else String c (replaceUnderscore rest)
  end.

(** [prisma.jobApplication.findFirst({ where: { id, userId } })] *)
Definition findFirst (id userId : Id) (db : Store) : option JobApplication :=
  match jobApplications db !! id with
  | Some j => if Nat.eqb (job_userId j) userId then Some j else None
  | None => None
  end.

(** PUT of /api/jobs/[id]. *)
Definition PUT (V : Validators) (now : Z) (session : Session) (id : Id)
    (body : JobBody) (db : Store) : Response * Store :=
  match session_id session with
  | None => (respond 401 (ErrorJson "Unauthorized"), db)
  | Some userId =>
      match updateJobSchema V body with
      | None => (respond 400 (ErrorJson "Invalid input"), db)
      | Some data =>
          match findFirst id userId db with
          | None => (respond 404 (ErrorJson "Job application not found"), db)
          | Some existingJob =>
              match dateUpdate (ud_appliedDate data), dateUpdate (ud_deadline data) with
              | Some newApplied, Some newDeadline =>
                  let jobApplication :=
                    {| job_id := job_id existingJob;
                       job_userId := job_userId existingJob;
                       company := default (company existingJob) (ud_company data);
                       position := default (position existingJob) (ud_position data);
                       status := default (status existingJob) (ud_status data);
                       appliedDate := default (appliedDate existingJob) newApplied;
                       deadline := orElse newDeadline (deadline existingJob);
                       details := mergeDetails (ud_details data) (details existingJob) |} in
                  let db1 := set_jobApplications (insert id jobApplication) db in
                  (* Create status change event if status changed *)
                  let db2 :=
                    match ud_status data with
                    | Some st =>
                        if nonEmpty st && negb (String.eqb st (status existingJob))
                        then add_event
                               {| ev_jobApplicationId := id;
                                  ev_title := "Status Changed to " +:+ st;
                                  ev_description :=
                                    "Application status updated to "
                                    +:+ replaceUnderscore st;
                                  ev_eventDate := now;
                                  ev_eventType := "status_change" |} db1
                        else db1
                    | None => db1
                    end in
                  (respond 200 (JobJson jobApplication), db2)
              | _, _ => (respond 500 (ErrorJson "Internal server error"), db)
              end
          end
      end
  end.

(** The edit form (src/app/applications/[id]/edit/page.tsx): its
    fields as the form library hands them to [onSubmit]. *)
Record EditForm := {
  f_company : option string;
  f_position : option string;
  f_status : option string;
  f_appliedDate : option DateStr;
  f_deadline : option DateStr;
  f_followUpReminder : option DateStr;
  f_details : Details;
}.

(** [s ? new Date(s).toISOString() : undefined]; [None] when
    [toISOString] throws. *)
Definition isoField (field : option DateStr) : option DateField :=
  match field with
  | None => Some DfAbsent
  | Some s => DfDateTime <$> newDate s
  end.

(** [submitData] of [onSubmit], the body of the PUT; [None] when building
    it throws, in which case nothing is sent. *)
Definition submitData (data : EditForm) : option JobBody :=
  appliedDate ← isoField (f_appliedDate data);
  deadline ← isoField (f_deadline data);
  followUpReminder ← isoField (f_followUpReminder data);
  Some {| b_company := f_company data; b_position := f_position data;
          b_status := f_status data; b_appliedDate := appliedDate;
          b_deadline := deadline; b_followUpReminder := followUpReminder;
          b_details := f_details data |}.

End JobsRoute.

(** ** A small scenario: one user, one application *)

Module Scenario.
Import Js Db JobsRoute.

Definition alice : User := {| user_id := 1%nat; user_email := "alice@example.org" |}.

Definition aliceSession : Session :=
  Some {| su_id := Some 1%nat; su_email := Some "alice@example.org"%string |}.

(** A store holding the account of alice and nothing else. *)
Definition db0 : Store :=
  {| users := {[ "alice@example.org"%string := alice ]};
     preferences := ∅;
     jobApplications := ∅;
     applicationEvents := [];
     reminders := [];
     nextId := 2%nat |}.

(** The same store once alice has chosen [days] follow-up days. *)
Definition dbWithDays (days : Z) : Store :=
  set_preferences
    (insert 1%nat {| pref_userId := 1%nat; pref_defaultStatus := "APPLIED";
                     pref_defaultFollowUpDays := days |}) db0.

Definition anyString : Validators :=
  {| isUrl := fun _ => true; isEmail := fun _ => true |}.

(** A StringToNumber that reads no string as a number. *)
Definition noNumber : string -> option Q := fun _ => None.

(** The optional fields as a filled-in form sends them: the selects
    chosen, the text inputs left empty. *)
Definition formDetails : Details :=
  {| location := Some "Berlin"%string; jobUrl := Some EmptyString;
     salary := Some EmptyString; jobType := Some "FULL_TIME"%string;
     workLocation := Some "REMOTE"%string; priority := Some "MEDIUM"%string;
     description := Some EmptyString; requirements := Some EmptyString;
     notes := Some EmptyString; contactName := Some EmptyString;
     contactEmail := Some EmptyString; contactPhone := Some EmptyString |}.

(** UTC midnight of a date, as a time value. *)
Definition midnight (s : DateStr) : Z := dayNumber s * msPerDay.

(** What the new-application form sends for an application made on
    2024-01-01 with the reminder the effect computed, 2024-01-08. *)
Definition createBody : JobBody :=
  {| b_company := Some "Acme"%string; b_position := Some "Engineer"%string;
     b_status := Some "APPLIED"%string;
     b_appliedDate := DfDateTime (midnight (mkDateStr 2024 1 1));
     b_deadline := DfAbsent;
     b_followUpReminder := DfDateTime (midnight (mkDateStr 2024 1 8));
     b_details := formDetails |}.

Definition dbCreated : Store :=
  snd (POST anyString (midnight (mkDateStr 2024 1 1)) aliceSession createBody
         (dbWithDays 7)).

(** The edit form, with the applied date moved to 2024-02-01 and the
    follow-up field left empty, as the page loads it. *)
Definition editForm : EditForm :=
  {| f_company := Some "Acme"%string; f_position := Some "Engineer"%string;
     f_status := Some "APPLIED"%string;
     f_appliedDate := Some (mkDateStr 2024 2 1);
     f_deadline := None;
     f_followUpReminder := None;
     f_details := formDetails |}.

End Scenario.

(** ** More of the code: the rest of /api/jobs/[id], the two forms around
    the routes, and the password reset *)

(** *** /api/jobs/[id] (GET and DELETE) *)

Module JobItemRoute.
Import Db JobsRoute.

(** What these two handlers answer. *)
Inductive Payload :=
| ErrorPayload (error : string)
| MessagePayload (message : string)
| JobPayload (j : JobApplication).

Record Reply := { rep_status : Z; rep_payload : Payload }.

Definition reply (st : Z) (p : Payload) : Reply :=
  {| rep_status := st; rep_payload := p |}.

(** GET: the application of that id, when it is the caller's.  (The rows
    included with it, documents, events and reminders, are read and not
    written; the payload here is the application itself.) *)
Definition GET (session : Session) (id : Id) (db : Store) : Reply :=
  match session_id session with
  | None => reply 401 (ErrorPayload "Unauthorized")
  | Some userId =>
      match findFirst id userId db with
      | None => reply 404 (ErrorPayload "Job application not found")
      | Some jobApplication => reply 200 (JobPayload jobApplication)
      end
  end.

(** Whether an event or a reminder refers to the application [id]. *)
Definition hasRelated (id : Id) (db : Store) : bool :=
  existsb (fun e => Nat.eqb (ev_jobApplicationId e) id) (applicationEvents db)
  || existsb (fun r => Nat.eqb (rem_jobApplicationId r) id) (reminders db).

(** [prisma.jobApplication.delete({ where: { id } })].  The schema is not
    among the sources, so what happens to the events and reminders of the
    application is a parameter: with [cascade] they go with it (onDelete:
    Cascade); without, the client refuses to delete an application that
    still has some (Prisma's default for a required relation, Restrict),
    and the outer option is that refusal. *)
Definition deleteJob (cascade : bool) (id : Id) (db : Store) : option Store :=
  if cascade
  then Some {| users := users db; preferences := preferences db;
               jobApplications := delete id (jobApplications db);
               applicationEvents :=
                 List.filter (fun e => negb (Nat.eqb (ev_jobApplicationId e) id))
                   (applicationEvents db);
               reminders :=
                 List.filter (fun r => negb (Nat.eqb (rem_jobApplicationId r) id))
                   (reminders db);
               nextId := nextId db |}
  else if hasRelated id db then None
  else Some (set_jobApplications (delete id) db).

Definition DELETE (cascade : bool) (session : Session) (id : Id) (db : Store)
    : Reply * Store :=
  match session_id session with
  | None => (reply 401 (ErrorPayload "Unauthorized"), db)
  | Some userId =>
      (* Check if job application exists and belongs to user *)
      match findFirst id userId db with
      | None => (reply 404 (ErrorPayload "Job application not found"), db)
      | Some existingJob =>
          match deleteJob cascade id db with
          | Some db' =>
              (reply 200 (MessagePayload "Job application deleted successfully"), db')
          | None => (reply 500 (ErrorPayload "Internal server error"), db)
          end
      end
  end.

(** The row the PUT of this file writes, and the event it adds, under
    names of their own for the statements about it. *)
Definition updatedRow (existingJob : JobApplication) (data : UpdateJobData)
    (newApplied newDeadline : option Z) : JobApplication :=
  {| job_id := job_id existingJob;
     job_userId := job_userId existingJob;
     company := default (company existingJob) (ud_company data);
     position := default (position existingJob) (ud_position data);
     status := default (status existingJob) (ud_status data);
     appliedDate := default (appliedDate existingJob) newApplied;
     deadline := orElse newDeadline (deadline existingJob);
     details := mergeDetails (ud_details data) (details existingJob) |}.

Definition statusEvents (now : Z) (id : Id) (existingJob : JobApplication)
    (data : UpdateJobData) : list ApplicationEvent :=
  match ud_status data with
  | Some st =>
      if nonEmpty st && negb (String.eqb st (status existingJob))
      then [ {| ev_jobApplicationId := id;
                ev_title := "Status Changed to " +:+ st;
                ev_description :=
                  "Application status updated to " +:+ replaceUnderscore st;
                ev_eventDate := now;
                ev_eventType := "status_change" |} ]
      else []
  | None => []
  end.

(** Every event and every reminder belongs to a stored application. *)
Definition related (db : Store) : Prop :=
  Forall (fun e => is_Some (jobApplications db !! ev_jobApplicationId e))
    (applicationEvents db)
  /\ Forall (fun r => is_Some (jobApplications db !! rem_jobApplicationId r))
       (reminders db).

(** The ids in use lie below the next id, and each application is stored
    under its own id. *)
Definition idsInUse (db : Store) : Prop :=
  forall id j, jobApplications db !! id = Some j ->
               (id < nextId db)%nat /\ job_id j = id.

End JobItemRoute.

(** *** The two forms: what is submitted, and how the edit form is loaded *)

Module Forms.
Import Db JobsRoute.

(** [onSubmit] of the new-application page builds its body as the edit
    page does (page.tsx, [submitData]: each date field [s ? new
    Date(s).toISOString() : undefined], the rest as it is). *)
Definition newSubmitData (data : EditForm) : option JobBody := submitData data.

(** The schema both pages hand to the form as its resolver (the two are
    field by field the same): [onSubmit] runs on the values that pass it.
    A field of the form holds a string; [None] is a field left
    undefined. *)
Definition formSchema (V : Validators) (data : EditForm) : bool :=
  match f_company data, f_position data with
  | Some company, Some position =>
      nonEmpty company && nonEmpty position && optEnum statuses (f_status data)
      && detailsOk V (f_details data)
  | _, _ => false
  end.

(** [s || ''] on an optional text column of the fetched application. *)
Definition orEmpty (v : option string) : option string :=
  Some (default EmptyString v).

(** [data.x ? data.x.split('T')[0] : ''] on a date column, which arrives
    as the ISO string of its time value.  (For a year outside 0..9999 the
    ISO string has a sign and six digits of year; the properties of the
    forms keep to the years 0..9999 of a date input.) *)
Definition dateInput (column : option Z) : option DateStr :=
  t ← column; toISODate (Some t).

(** [fetchApplication] of the edit page: the values [reset] puts into the
    form.  The follow-up field is not among them. *)
Definition resetForm (data : JobApplication) : EditForm :=
  {| f_company := Some (company data);
     f_position := Some (position data);
     f_status := Some (if String.eqb (status data) EmptyString
                       then "APPLIED"%string else status data);
     f_appliedDate := dateInput (Some (appliedDate data));
     f_deadline := dateInput (deadline data);
     f_followUpReminder := None;
     f_details :=
       {| location := orEmpty (location (details data));
          jobUrl := orEmpty (jobUrl (details data));
          salary := orEmpty (salary (details data));
          jobType := orEmpty (jobType (details data));
          workLocation := orEmpty (workLocation (details data));
          priority :=
            Some (match priority (details data) with
                  | Some p => if String.eqb p EmptyString then "MEDIUM"%string else p
                  | None => "MEDIUM"%string
                  end);
          description := orEmpty (description (details data));
          requirements := orEmpty (requirements (details data));
          notes := orEmpty (notes (details data));
          contactName := orEmpty (contactName (details data));
          contactEmail := orEmpty (contactEmail (details data));
          contactPhone := orEmpty (contactPhone (details data)) |} |}.

End Forms.

(** *** The password reset: the request (/api/auth/forgot-password, the
    second handler of the jobs file) and its confirmation
    (/api/auth/reset-password/confirm) *)

Module PasswordReset.
Import Js Db.

Record ResetToken := {
  rt_email : string;
  rt_expires : Z;
  rt_used : bool;
}.

Record Mail := { mail_to : string; mail_token : string }.

(** The tables the two handlers work on: the users (of [Db]), their
    password hashes by email, the tokens by token, and the mails sent. *)
Record AuthStore := {
  base : Store;
  passwords : gmap string string;
  resetTokens : gmap string ResetToken;
  outbox : list Mail;
}.

(** What the handlers take from outside: bcrypt, the default of the
    column [used] (the schema is not among the sources), and the [length]
    of a value that is an array or an object. *)
Record Env := {
  hash : string -> string;
  usedDefault : bool;
  objectLength : string -> option Z;
}.

Inductive Payload :=
| ErrorPayload (error : string)
| MessagePayload (message : string).

Record Reply := { rep_status : Z; rep_payload : Payload }.

Definition reply (st : Z) (p : Payload) : Reply :=
  {| rep_status := st; rep_payload := p |}.

Definition sent : Reply :=
  reply 200 (MessagePayload "If an account exists, a reset link has been sent").

Definition hour : Z := 3600000.

(** The request.  [resetToken] is what [crypto.randomBytes(32)] gives,
    [now] what [Date.now()] reads, [mailOk] whether [sendMail] resolves. *)
Definition forgotPassword (E : Env) (resetToken : string) (now : Z) (mailOk : bool)
    (email : Value) (s : AuthStore) : Reply * AuthStore :=
  if negb (truthy email)
  then (reply 400 (ErrorPayload "Email is required"), s)
  else
    match email with
    | JsString email =>
        (* Check if user exists *)
        match users (base s) !! email with
        | None =>
            (* Don't reveal if user exists or not for security *)
            (sent, s)
        | Some user =>
            match resetTokens s !! resetToken with
            | Some _ =>
                (* the token column is unique: the create throws *)
                (reply 500 (ErrorPayload "Failed to send reset email"), s)
            | None =>
                let s1 :=
                  {| base := base s; passwords := passwords s;
                     resetTokens :=
                       <[resetToken := {| rt_email := email;
                                          rt_expires := now + hour;
                                          rt_used := usedDefault E |}]>
                         (resetTokens s);
                     outbox := outbox s |} in
                if mailOk
                then (sent,
                      {| base := base s1; passwords := passwords s1;
                         resetTokens := resetTokens s1;
                         outbox := outbox s1 ++ [ {| mail_to := email;
                                                     mail_token := resetToken |} ] |})
                else (reply 500 (ErrorPayload "Failed to send reset email"), s1)
            end
        end
    | _ =>
        (* the client refuses a where clause that is no string *)
        (reply 500 (ErrorPayload "Failed to send reset email"), s)
    end.

(** [password.length < 6]; a number or a boolean has no length, and the
    comparison with undefined is false. *)
Definition tooShort (E : Env) (password : Value) : bool :=
  match password with
  | JsString p => Z.of_nat (String.length p) <? 6
  | JsObject prim =>
      match objectLength E prim with
      | Some n => n <? 6
      | None => false
      end
  | _ => false
  end.

(** The confirmation. *)
Definition confirm (E : Env) (now : Z) (token password : Value) (s : AuthStore)
    : Reply * AuthStore :=
  if negb (truthy token) || negb (truthy password)
  then (reply 400 (ErrorPayload "Token and password are required"), s)
  else if tooShort E password
  then (reply 400 (ErrorPayload "Password must be at least 6 characters"), s)
  else
    match token with
    | JsString token =>
        (* Find valid token *)
        match resetTokens s !! token with
        | None => (reply 400 (ErrorPayload "Invalid or expired token"), s)
        | Some resetToken =>
            if rt_used resetToken || (rt_expires resetToken <? now)
            then (reply 400 (ErrorPayload "Invalid or expired token"), s)
            else
              match password, users (base s) !! rt_email resetToken with
              | JsString password, Some _ =>
                  (reply 200 (MessagePayload "Password reset successfully"),
                   {| base := base s;
                      passwords := <[rt_email resetToken := hash E password]> (passwords s);
                      resetTokens :=
                        <[token := {| rt_email := rt_email resetToken;
                                      rt_expires := rt_expires resetToken;
                                      rt_used := true |}]> (resetTokens s);
                      outbox := outbox s |})
              | _, _ =>
                  (* bcrypt refuses what is no string; the update throws
                     when the user is gone *)
                  (reply 500 (ErrorPayload "Failed to reset password"), s)
              end
        end
    | _ => (reply 500 (ErrorPayload "Failed to reset password"), s)
    end.

(** [handleSubmit] of the reset page: what it shows without sending, or the
    token and password it sends. *)
Inductive Submit :=
| ShowError (error : string)
| Send (token password : string).

Definition handleSubmit (token password confirmPassword : string) : Submit :=
  if String.eqb token EmptyString then ShowError "Invalid reset link"
  else if negb (String.eqb password confirmPassword)
  then ShowError "Passwords do not match"
  else if (String.length password <? 6)%nat
  then ShowError "Password must be at least 6 characters"
  else Send token password.

End PasswordReset.

(** *** What a request may touch *)

Module Frames.
Import Db.

(** [db'] differs from [db] in the preference row of [userId] at most. *)
Definition onlyPreferencesOf (userId : Id) (db db' : Store) : Prop :=
  delete userId (preferences db') = delete userId (preferences db)
  /\ users db' = users db
  /\ jobApplications db' = jobApplications db
  /\ applicationEvents db' = applicationEvents db
  /\ reminders db' = reminders db
  /\ nextId db' = nextId db.

(** [db'] differs from [db] in the application [id] and in events added
    at the end at most. *)
Definition onlyApplication (id : Id) (db db' : Store) : Prop :=
  delete id (jobApplications db') = delete id (jobApplications db)
  /\ users db' = users db
  /\ preferences db' = preferences db
  /\ reminders db' = reminders db
  /\ nextId db' = nextId db
  /\ exists added, applicationEvents db' = applicationEvents db ++ added.

End Frames.

(** *** Data for the properties of these routes *)

Module Cases.
Import Js Db JobsRoute Scenario.

Definition bob : User := {| user_id := 5%nat; user_email := "bob@example.org" |}.

Definition bobSession : Session :=
  Some {| su_id := Some 5%nat; su_email := Some "bob@example.org"%string |}.

(** Alice has 12 days stored and one application, number 2, with its
    event and its reminder; bob has an account. *)
Definition dbTwoUsers : Store :=
  {| users := <[ "bob@example.org"%string := bob ]> (users dbCreated);
     preferences := <[ 1%nat := {| pref_userId := 1%nat;
                                   pref_defaultStatus := "APPLIED";
                                   pref_defaultFollowUpDays := 12 |} ]>
                      (preferences dbCreated);
     jobApplications := jobApplications dbCreated;
     applicationEvents := applicationEvents dbCreated;
     reminders := reminders dbCreated;
     nextId := nextId dbCreated |}.

(** The new-application form as alice fills it in on 2024-01-01, the
    follow-up field as the effect left it. *)
Definition newForm : EditForm :=
  {| f_company := Some "Acme"%string; f_position := Some "Engineer"%string;
     f_status := Some "APPLIED"%string;
     f_appliedDate := Some (mkDateStr 2024 1 1);
     f_deadline := None;
     f_followUpReminder := Some (mkDateStr 2024 1 8);
     f_details := formDetails |}.

(** Alice's application as [dbCreated] holds it. *)
Definition aliceJob : JobApplication :=
  {| job_id := 2%nat; job_userId := 1%nat;
     company := "Acme"; position := "Engineer"; status := "APPLIED";
     appliedDate := midnight (mkDateStr 2024 1 1); deadline := None;
     details := formDetails |}.

(** An application as a request to the API may create it without the
    form: at half past two, and with none of the optional columns. *)
Definition apiJob : JobApplication :=
  {| job_id := 3%nat; job_userId := 1%nat;
     company := "Initech"; position := "Analyst"; status := "APPLIED";
     appliedDate := midnight (mkDateStr 2024 1 1) + 52200000; deadline := None;
     details :=
       {| location := None; jobUrl := None; salary := None; jobType := None;
          workLocation := None; priority := Some "MEDIUM"%string;
          description := None; requirements := None; notes := None;
          contactName := None; contactEmail := None; contactPhone := None |} |}.

(** An application of alice's with a deadline on 2024-03-01. *)
Definition dbDeadline : Store :=
  snd (POST anyString (midnight (mkDateStr 2024 1 1)) aliceSession
         {| b_company := Some "Acme"%string; b_position := Some "Engineer"%string;
            b_status := Some "APPLIED"%string;
            b_appliedDate := DfDateTime (midnight (mkDateStr 2024 1 1));
            b_deadline := DfDateTime (midnight (mkDateStr 2024 3 1));
            b_followUpReminder := DfAbsent;
            b_details := formDetails |}
         (dbWithDays 7)).

Definition plainEnv : PasswordReset.Env :=
  {| PasswordReset.hash := fun p => ("bcrypt:" +:+ p)%string;
     PasswordReset.usedDefault := false;
     PasswordReset.objectLength := fun _ => None |}.

(** Alice's account with a password, no token, no mail. *)
Definition auth0 : PasswordReset.AuthStore :=
  {| PasswordReset.base := db0;
     PasswordReset.passwords := {[ "alice@example.org"%string := "bcrypt:old"%string ]};
     PasswordReset.resetTokens := ∅;
     PasswordReset.outbox := [] |}.

(** The same after alice asked for a reset at time 1000. *)
Definition authAsked : PasswordReset.AuthStore :=
  snd (PasswordReset.forgotPassword plainEnv "c0ffee" 1000 true
         (JsString "alice@example.org") auth0).

End Cases.

(** * Properties *)

Import Js Db FollowUp.

(** Case analysis on every [<?] and [<=?] of the goal. *)
Ltac case_ltb :=
  repeat match goal with
         | |- context [?a <? ?b] => destruct (Z.ltb_spec a b)
         | |- context [?a <=? ?b] => destruct (Z.leb_spec a b)
         end.

(** ** The calendar *)

Section Calendar.

Lemma DayFromYear_step y : DayFromYear (y + 1) = DayFromYear y + DaysInYear y.
Proof.
  unfold DayFromYear, DaysInYear, isLeapYear.
  repeat match goal with |- context [?a =? ?b] => destruct (Z.eqb_spec a b) end;
    simpl; Z.div_mod_to_equations; lia.
Qed.

Lemma DayFromYear_mono y1 y2 : y1 <= y2 -> DayFromYear y1 <= DayFromYear y2.
Proof. unfold DayFromYear. intros. Z.div_mod_to_equations. lia. Qed.

(** [YearFromTime] is the year ECMA-262 asks for: the day of [t] lies in
    it, and in no other year. *)
Lemma YearFromTime_spec t :
  DayFromYear (YearFromTime t) <= Day t < DayFromYear (YearFromTime t + 1).
Proof.
  unfold YearFromTime.
  set (d := Day t). cbv zeta.
  set (y := 1970 + 400 * d / 146097).
  destruct (Z.leb_spec (DayFromYear (y + 1)) d) as [H1|H1].
  - split; [lia|]. unfold DayFromYear in *. subst y. Z.div_mod_to_equations. lia.
  - destruct (Z.leb_spec (DayFromYear y) d) as [H2|H2].
    + lia.
    + replace (y - 1 + 1) with y by lia. split; [|lia].
      unfold DayFromYear in *. subst y. Z.div_mod_to_equations. lia.
Qed.

Lemma YearFromTime_unique t y :
  DayFromYear y <= Day t < DayFromYear (y + 1) -> YearFromTime t = y.
Proof.
  intros H. pose proof (YearFromTime_spec t) as H'.
  destruct (Z.lt_trichotomy (YearFromTime t) y) as [Hlt|[Heq|Hgt]]; [|exact Heq|].
  - pose proof (DayFromYear_mono (YearFromTime t + 1) y ltac:(lia)). lia.
  - pose proof (DayFromYear_mono (y + 1) (YearFromTime t) ltac:(lia)). lia.
Qed.

Lemma MakeDay_month_in_year y m d :
  0 <= m < 12 ->
  MakeDay y m d = DayFromYear y + monthStart (isLeapYear y) m + d - 1.
Proof.
  intros Hm. unfold MakeDay.
  rewrite (Z.div_small m 12), (Z.mod_small m 12), Z.add_0_r by lia. reflexivity.
Qed.

Lemma MonthFromTime_range t : 0 <= MonthFromTime t < 12.
Proof. unfold MonthFromTime. cbv zeta. case_ltb; lia. Qed.

(** The identity behind [d.setDate(d.getDate() + k)]: rebuilding the day
    from the year, month and date of [t], with the date moved by [k],
    moves the day number by [k]. *)
Lemma MakeDay_of_time t k :
  MakeDay (YearFromTime t) (MonthFromTime t) (DateFromTime t + k) = Day t + k.
Proof.
  rewrite MakeDay_month_in_year by apply MonthFromTime_range.
  unfold DateFromTime, MonthFromTime, InLeapYear, DayWithinYear.
  destruct (isLeapYear (YearFromTime t)); cbv zeta;
    case_ltb; cbv [monthStart]; lia.
Qed.

Lemma DayWithinYear_range t : 0 <= DayWithinYear t < DaysInYear (YearFromTime t).
Proof.
  unfold DayWithinYear. pose proof (YearFromTime_spec t) as H.
  rewrite DayFromYear_step in H. lia.
Qed.

(** The date printed for a time value is a date of the calendar. *)
Lemma DateFromTime_range t :
  1 <= DateFromTime t <= DaysInMonth (YearFromTime t) (MonthFromTime t).
Proof.
  pose proof (DayWithinYear_range t) as H. revert H.
  unfold DateFromTime, MonthFromTime, InLeapYear, DaysInYear.
  set (d := DayWithinYear t).
  destruct (isLeapYear (YearFromTime t)) eqn:HL; cbv zeta;
    case_ltb; cbv [DaysInMonth]; rewrite ?HL; lia.
Qed.

Lemma monthStart_bounds y m d :
  0 <= m < 12 -> 1 <= d <= DaysInMonth y m ->
  0 <= monthStart (isLeapYear y) m + d - 1 < DaysInYear y.
Proof.
  intros Hm. unfold DaysInYear, DaysInMonth, monthStart.
  assert (m = 0 \/ m = 1 \/ m = 2 \/ m = 3 \/ m = 4 \/ m = 5 \/ m = 6
          \/ m = 7 \/ m = 8 \/ m = 9 \/ m = 10 \/ m = 11) as Hc by lia.
  destruct (isLeapYear y); intuition (subst; lia).
Qed.

Lemma Day_of_day d : Day (d * msPerDay) = d.
Proof. unfold Day, msPerDay. rewrite Z.div_mul; lia. Qed.

Lemma Day_add_days d r : Day (d * msPerDay + r) = d + Day r.
Proof. unfold Day, msPerDay. rewrite Z.add_comm, Z.div_add; lia. Qed.

(** Date strings and day numbers correspond one to one. *)
Lemma dayNumber_dateOfDay d : dayNumber (dateOfDay d) = d.
Proof.
  unfold dayNumber, dateOfDay; cbn [ds_year ds_month ds_day].
  replace (MonthFromTime (d * msPerDay) + 1 - 1)
    with (MonthFromTime (d * msPerDay)) by lia.
  pose proof (MakeDay_of_time (d * msPerDay) 0) as H.
  rewrite Z.add_0_r, Day_of_day in H. lia.
Qed.

Lemma dateOfDay_dayNumber s :
  1 <= ds_month s <= 12 ->
  1 <= ds_day s <= DaysInMonth (ds_year s) (ds_month s - 1) ->
  dateOfDay (dayNumber s) = s.
Proof.
  destruct s as [y m d]; cbn [ds_year ds_month ds_day]. intros Hm Hd.
  unfold dateOfDay, dayNumber; cbn [ds_year ds_month ds_day].
  rewrite MakeDay_month_in_year by lia.
  pose proof (monthStart_bounds y (m - 1) d ltac:(lia) Hd) as Hb.
  set (t := (_ * msPerDay)).
  assert (HD : Day t = DayFromYear y + monthStart (isLeapYear y) (m - 1) + d - 1)
    by apply Day_of_day.
  assert (HY : YearFromTime t = y).
  { apply YearFromTime_unique. rewrite DayFromYear_step, HD. lia. }
  assert (Hdw : DayWithinYear t = monthStart (isLeapYear y) (m - 1) + d - 1).
  { unfold DayWithinYear. rewrite HY, HD. lia. }
  unfold DateFromTime, MonthFromTime, InLeapYear. rewrite HY, Hdw. clear HD HY Hdw t.
  revert Hd Hb. unfold DaysInMonth, DaysInYear.
  remember (m - 1) as m0 eqn:Hm0.
  assert (m0 = 0 \/ m0 = 1 \/ m0 = 2 \/ m0 = 3 \/ m0 = 4 \/ m0 = 5 \/ m0 = 6
          \/ m0 = 7 \/ m0 = 8 \/ m0 = 9 \/ m0 = 10 \/ m0 = 11) as Hc by lia.
  destruct (isLeapYear y); cbv zeta; intros Hd Hb;
    repeat (destruct Hc as [Hc|Hc]; [rewrite Hc in *; clear Hc|]);
    try (rewrite Hc in *; clear Hc); cbn [monthStart] in *;
    case_ltb; try lia; f_equal; lia.
Qed.

Lemma validDate_fields s :
  validDate s = true ->
  0 <= ds_year s <= 9999 /\ 1 <= ds_month s <= 12
  /\ 1 <= ds_day s <= DaysInMonth (ds_year s) (ds_month s - 1).
Proof. unfold validDate. rewrite !andb_true_iff, !Z.leb_le. lia. Qed.

(** A valid date string lies well inside the range of Date. *)
Lemma dayNumber_valid_range s :
  validDate s = true -> -719528 <= dayNumber s <= 2932896.
Proof.
  intros H. apply validDate_fields in H as (Hy & Hm & Hd).
  unfold dayNumber. rewrite MakeDay_month_in_year by lia.
  pose proof (monthStart_bounds _ (ds_month s - 1) _ ltac:(lia) Hd) as Hb.
  pose proof (DayFromYear_mono 0 (ds_year s) ltac:(lia)) as H0.
  pose proof (DayFromYear_mono (ds_year s + 1) 10000 ltac:(lia)) as H1.
  rewrite DayFromYear_step in H1.
  change (DayFromYear 0) with (-719528) in H0.
  change (DayFromYear 10000) with 2932897 in H1. lia.
Qed.

Lemma dayNumber_addDays s k : dayNumber (addDays s k) = dayNumber s + k.
Proof. apply dayNumber_dateOfDay. Qed.

End Calendar.

Example epoch_day : dateOfDay 0 = mkDateStr 1970 1 1.
Proof. reflexivity. Qed.

Example leap_day_2024 : addDays (mkDateStr 2024 2 28) 1 = mkDateStr 2024 2 29.
Proof. reflexivity. Qed.

Example no_leap_day_2100 : addDays (mkDateStr 2100 2 28) 1 = mkDateStr 2100 3 1.
Proof. reflexivity. Qed.

Example new_year_eve : addDays (mkDateStr 2024 1 1) (-1) = mkDateStr 2023 12 31.
Proof. reflexivity. Qed.

(** ** The Date methods *)

Section DateMethods.

Variable tz : TimeZone.

Lemma MakeDate_shift lt k :
  MakeDate (Day lt + k) (TimeWithinDay lt) = lt + k * msPerDay.
Proof.
  unfold MakeDate, Day, TimeWithinDay.
  pose proof (Z.div_mod lt msPerDay ltac:(unfold msPerDay; lia)). lia.
Qed.

(** [d.setDate(d.getDate() + k)] moves [d] by [k] days, plus what the
    zone's offset lost or gained over these days. *)
Lemma setDate_getDate_drift t k :
  setDate tz (Some t) (num_add (getDate tz (Some t)) (Some k))
  = TimeClip (t + k * msPerDay + zoneDrift tz t k).
Proof.
  unfold setDate, getDate, num_add. cbn.
  rewrite MakeDay_of_time, MakeDate_shift.
  unfold UTC, zoneDrift, LocalTime. f_equal. lia.
Qed.

Lemma sameOffset_drift t k : sameOffset tz t k <-> zoneDrift tz t k = 0.
Proof. unfold sameOffset, zoneDrift. lia. Qed.

Lemma setDate_getDate_same_offset t k :
  sameOffset tz t k ->
  setDate tz (Some t) (num_add (getDate tz (Some t)) (Some k))
  = TimeClip (t + k * msPerDay).
Proof.
  intros H. apply sameOffset_drift in H.
  rewrite setDate_getDate_drift, H, Z.add_0_r. reflexivity.
Qed.

End DateMethods.

Lemma sameOffset_fixed offset t k : sameOffset (fixedZone offset) t k.
Proof. reflexivity. Qed.

Lemma TimeClip_in_range t :
  - maxTime <= t <= maxTime -> TimeClip t = Some t.
Proof.
  intros H. unfold TimeClip.
  destruct (Z.leb_spec (Z.abs t) maxTime); [reflexivity|lia].
Qed.

Lemma TimeClip_days d :
  -100000000 <= d <= 100000000 -> TimeClip (d * msPerDay) = Some (d * msPerDay).
Proof. intros H. apply TimeClip_in_range. unfold maxTime, msPerDay. lia. Qed.

Lemma newDate_valid s :
  validDate s = true -> newDate s = Some (dayNumber s * msPerDay).
Proof.
  intros H. unfold newDate. rewrite H.
  pose proof (dayNumber_valid_range s H) as Hr.
  unfold MakeDate. rewrite Z.add_0_r. apply TimeClip_days. lia.
Qed.

(** The date [toISOString] prints depends on the UTC day only. *)
Lemma toISODate_day t : toISODate (Some t) = Some (dateOfDay (Day t)).
Proof.
  unfold toISODate, dateOfDay. cbn.
  unfold DateFromTime, MonthFromTime, InLeapYear, DayWithinYear, YearFromTime.
  rewrite !Day_of_day. reflexivity.
Qed.

Lemma ceilDays_days d : ceilDays (Some (d * msPerDay)) = Some d.
Proof.
  unfold ceilDays. cbn. f_equal.
  replace (- (d * msPerDay)) with ((- d) * msPerDay) by lia.
  unfold msPerDay. rewrite Z.div_mul; lia.
Qed.

Lemma daysDifference_valid applied deadline :
  validDate applied = true -> validDate deadline = true ->
  daysDifference (newDate applied) (newDate deadline)
  = Some (dayNumber deadline - dayNumber applied).
Proof.
  intros Ha Hd. unfold daysDifference, getTime, num_sub.
  rewrite (newDate_valid _ Ha), (newDate_valid _ Hd). cbn.
  replace (dayNumber deadline * msPerDay - dayNumber applied * msPerDay)
    with ((dayNumber deadline - dayNumber applied) * msPerDay) by lia.
  apply ceilDays_days.
Qed.

(** ** The follow-up date, in any zone *)

Section FollowUpRule.

Variables (tz : TimeZone) (prefs : Preferences).
Variables (applied : DateStr) (deadline : option DateStr).

Hypothesis applied_valid : validDate applied = true.
Hypothesis deadline_valid : from_option (fun d => validDate d = true) True deadline.

Local Abbreviation n := (defaultFollowUpDays prefs).
Local Abbreviation start := (fst (ruleShift applied deadline n)).
Local Abbreviation shift := (snd (ruleShift applied deadline n)).
Local Abbreviation drift := (zoneDrift tz (dayNumber start * msPerDay) shift).

(** The code takes the branch of the rule: it starts from the date the
    rule starts from and asks [setDate] for the rule's number of days. *)
Lemma followUpDate_shift :
  followUpDate tz (newDate applied) (newDate <$> deadline) n
  = TimeClip ((dayNumber start + shift) * msPerDay + drift).
Proof.
  unfold followUpDate, ruleShift.
  destruct deadline as [dl|]; cbn [fmap option_fmap option_map from_option] in *.
  - rewrite (daysDifference_valid _ _ applied_valid deadline_valid). cbn [num_le].
    destruct (Z.leb_spec (dayNumber dl - dayNumber applied) n); cbn [fst snd].
    + rewrite (newDate_valid _ deadline_valid), setDate_getDate_drift. f_equal. lia.
    + rewrite (newDate_valid _ applied_valid), setDate_getDate_drift. f_equal. lia.
  - cbn [fst snd].
    rewrite (newDate_valid _ applied_valid), setDate_getDate_drift. f_equal. lia.
Qed.

Lemma start_range :
  -90000000 <= n -> dayNumber applied + n < 100000000 ->
  -99999999 <= dayNumber start + shift < 100000000.
Proof.
  intros Hn Hmax. pose proof (dayNumber_valid_range _ applied_valid) as Hra.
  unfold ruleShift. destruct deadline as [dl|]; cbn [from_option] in *;
    [pose proof (dayNumber_valid_range _ deadline_valid) as Hrd|];
    case_ltb; cbn [fst snd]; lia.
Qed.

(** What the field receives, whatever the zone does: the date of the rule,
    moved by the whole days (0 or -1 when the offsets differ by less than a
    day) of the drift. *)
Lemma followUpEffect_drift :
  -90000000 <= n -> dayNumber applied + n < 100000000 ->
  - msPerDay <= drift <= msPerDay ->
  followUpEffect tz (Some prefs) (Some applied) deadline
  = SetFollowUpReminder (addDays start (shift + Day drift)).
Proof.
  intros Hn Hmax Hdrift. pose proof (start_range Hn Hmax) as Hr.
  unfold followUpEffect. rewrite followUpDate_shift, TimeClip_in_range.
  - rewrite toISODate_day, Day_add_days. unfold addDays. do 2 f_equal. lia.
  - unfold maxTime, msPerDay in *. lia.
Qed.

(** With the same offset at both ends the field receives the date of the
    rule. *)
Lemma followUpEffect_same_offset :
  -90000000 <= n -> dayNumber applied + n <= 100000000 ->
  offsetKept tz applied deadline n ->
  followUpEffect tz (Some prefs) (Some applied) deadline
  = SetFollowUpReminder (ruleDate applied deadline n).
Proof.
  intros Hn Hmax Hkept. apply sameOffset_drift in Hkept.
  pose proof (dayNumber_valid_range _ applied_valid) as Hra.
  unfold followUpEffect. rewrite followUpDate_shift, Hkept, Z.add_0_r, TimeClip_days.
  - reflexivity.
  - unfold ruleShift. destruct deadline as [dl|]; cbn [from_option] in *;
      [pose proof (dayNumber_valid_range _ deadline_valid) as Hrd|];
      case_ltb; cbn [fst snd]; lia.
Qed.

(** When the offset at the target of the shift is larger than at its start
    (the clocks were moved forward in between, seen from the start), the
    field receives the day before the date of the rule. *)
Lemma followUpEffect_day_short :
  -90000000 <= n -> dayNumber applied + n < 100000000 ->
  - msPerDay <= drift < 0 ->
  followUpEffect tz (Some prefs) (Some applied) deadline
  = SetFollowUpReminder (addDays start (shift - 1)).
Proof.
  intros Hn Hmax Hdrift. rewrite followUpEffect_drift by lia.
  replace (Day drift) with (-1); [reflexivity|].
  unfold Day, msPerDay in *. Z.div_mod_to_equations. lia.
Qed.

End FollowUpRule.

Lemma followUpEffect_fixed offset prefs applied deadline :
  validDate applied = true ->
  from_option (fun d => validDate d = true) True deadline ->
  -90000000 <= defaultFollowUpDays prefs ->
  dayNumber applied + defaultFollowUpDays prefs <= 100000000 ->
  followUpEffect (fixedZone offset) (Some prefs) (Some applied) deadline
  = SetFollowUpReminder (ruleDate applied deadline (defaultFollowUpDays prefs)).
Proof.
  intros. apply followUpEffect_same_offset; try assumption.
  apply sameOffset_fixed.
Qed.

(** Among zones with a fixed offset the offset does not matter. *)
Lemma followUpEffect_offset_irrelevant o1 o2 prefs applied deadline :
  validDate applied = true ->
  from_option (fun d => validDate d = true) True deadline ->
  -90000000 <= defaultFollowUpDays prefs ->
  dayNumber applied + defaultFollowUpDays prefs <= 100000000 ->
  followUpEffect (fixedZone o1) (Some prefs) (Some applied) deadline
  = followUpEffect (fixedZone o2) (Some prefs) (Some applied) deadline.
Proof.
  intros. rewrite !followUpEffect_fixed by assumption. reflexivity.
Qed.

(** The scenarios of section 8 of the specification, in a host in UTC. *)

Example no_deadline_2024_01_01 :
  followUpEffect utcZone (Some sevenDays) (Some (mkDateStr 2024 1 1)) None
  = SetFollowUpReminder (mkDateStr 2024 1 8).
Proof. reflexivity. Qed.

Example far_deadline_2024_03_01 :
  followUpEffect utcZone (Some sevenDays)
    (Some (mkDateStr 2024 1 1)) (Some (mkDateStr 2024 3 1))
  = SetFollowUpReminder (mkDateStr 2024 1 8).
Proof. reflexivity. Qed.

Example near_deadline_2024_01_05 :
  followUpEffect utcZone (Some sevenDays)
    (Some (mkDateStr 2024 1 1)) (Some (mkDateStr 2024 1 5))
  = SetFollowUpReminder (mkDateStr 2024 1 4).
Proof. reflexivity. Qed.

Example boundary_deadline_2024_01_08 :
  followUpEffect utcZone (Some sevenDays)
    (Some (mkDateStr 2024 1 1)) (Some (mkDateStr 2024 1 8))
  = SetFollowUpReminder (mkDateStr 2024 1 7).
Proof. reflexivity. Qed.

(** New York, March 2024: over the seven days from 2024-03-05 the offset
    grows by an hour, and the field receives the day before the rule's. *)

Example drift_new_york_march :
  zoneDrift newYork2024 (dayNumber (mkDateStr 2024 3 5) * msPerDay) 7 = - msPerHour.
Proof. reflexivity. Qed.

Example day_short_new_york_march :
  followUpEffect newYork2024 (Some sevenDays) (Some (mkDateStr 2024 3 5)) None
  = SetFollowUpReminder (addDays (mkDateStr 2024 3 5) (7 - 1)).
Proof.
  apply (followUpEffect_day_short newYork2024 sevenDays (mkDateStr 2024 3 5) None);
    vm_compute; (reflexivity || congruence || (split; congruence)).
Qed.

(** New York, November 2024: a deadline one day after the applied date,
    across the end of summer time, puts the reminder before the applied
    date. *)

Example before_applied_new_york_november :
  followUpEffect newYork2024 (Some sevenDays)
    (Some (mkDateStr 2024 11 3)) (Some (mkDateStr 2024 11 4))
  = SetFollowUpReminder (mkDateStr 2024 11 2).
Proof. reflexivity. Qed.

(** The guard and the two ways the effect ends without a date. *)

Example no_preferences_yet applied deadline tz :
  followUpEffect tz None applied deadline = Skipped.
Proof. reflexivity. Qed.

Example empty_applied_date prefs deadline tz :
  followUpEffect tz prefs None deadline = Skipped.
Proof. destruct prefs; reflexivity. Qed.

Example beyond_the_range_of_Date :
  followUpEffect utcZone
    (Some {| defaultStatus := "APPLIED"; defaultFollowUpDays := 100000000 |})
    (Some (mkDateStr 2024 1 1)) None
  = RangeError.
Proof. reflexivity. Qed.

(** ** The follow-up rule: the claims *)

(** C1.  Claim: with no deadline the computed reminder date is the applied
    date plus [n] days, for every valid applied date and positive [n].
    The code breaks it: in a host in New York, for the applied date
    2024-03-05 and [n = 7], the page's own hint announces seven days after
    the applied date, and the field receives 2024-03-11, six days after it
    (seven days after is 2024-03-12).  The date is parsed and printed in
    UTC and moved in local time, and the clocks go forward on 2024-03-10. *)
Theorem C1_no_deadline_across_dst :
  hint sevenDays (mkDateStr 2024 3 5) None = DaysAfterApplied 7
  /\ followUpEffect newYork2024 (Some sevenDays) (Some (mkDateStr 2024 3 5)) None
     = SetFollowUpReminder (mkDateStr 2024 3 11)
  /\ addDays (mkDateStr 2024 3 5) 7 = mkDateStr 2024 3 12.
Proof. vm_compute. repeat split. Qed.

(** C2.  Claim: with a deadline, the result is the deadline minus one day
    when ceil((deadline - applied) / 1 day) <= n (equality included), and
    the applied date plus [n] days otherwise.  The code breaks both halves
    across a change of the host's offset (New York, n = 7): for applied
    2024-11-01 and deadline 2024-11-04 the difference is 3 and the field
    receives 2024-11-02, two days before the deadline; for applied
    2024-03-05 and deadline 2024-04-30 the difference is 56 and the field
    receives 2024-03-11, six days after the applied date. *)
Theorem C2_deadline_rule_across_dst :
  (daysDifference (newDate (mkDateStr 2024 11 1)) (newDate (mkDateStr 2024 11 4)) = Some 3
   /\ followUpEffect newYork2024 (Some sevenDays)
        (Some (mkDateStr 2024 11 1)) (Some (mkDateStr 2024 11 4))
      = SetFollowUpReminder (mkDateStr 2024 11 2)
   /\ addDays (mkDateStr 2024 11 4) (-1) = mkDateStr 2024 11 3)
  /\
  (daysDifference (newDate (mkDateStr 2024 3 5)) (newDate (mkDateStr 2024 4 30)) = Some 56
   /\ followUpEffect newYork2024 (Some sevenDays)
        (Some (mkDateStr 2024 3 5)) (Some (mkDateStr 2024 4 30))
      = SetFollowUpReminder (mkDateStr 2024 3 11)
   /\ addDays (mkDateStr 2024 3 5) 7 = mkDateStr 2024 3 12).
Proof. vm_compute. repeat split. Qed.

(** C3, the claim as stated fails: "never a date in the past relative to
    the applied date".  Applied date and deadline both 2024-01-01, n = 7,
    host in UTC: the field receives 2023-12-31. *)
Lemma C3_reminder_before_applied :
  followUpEffect utcZone (Some sevenDays)
    (Some (mkDateStr 2024 1 1)) (Some (mkDateStr 2024 1 1))
  = SetFollowUpReminder (mkDateStr 2023 12 31)
  /\ ~ (dayNumber (mkDateStr 2024 1 1) <= dayNumber (mkDateStr 2023 12 31)).
Proof. split; [reflexivity | vm_compute; intros H; apply H; reflexivity]. Qed.

(** C3, amended.  For valid dates and a positive [n] (with [n] days after
    the applied date a day Date can hold), where the host zone keeps its
    offset over the shift: the reminder date is on or after the applied
    date when no deadline is given and when the deadline is more than [n]
    days away; when the deadline-relative branch triggers it is strictly
    before the deadline, and it is on or after the applied date exactly
    when the deadline is after the applied date. *)
Theorem C3_reminder_bounds tz prefs applied deadline :
  validDate applied = true ->
  from_option (fun d => validDate d = true) True deadline ->
  0 < defaultFollowUpDays prefs ->
  dayNumber applied + defaultFollowUpDays prefs <= 100000000 ->
  offsetKept tz applied deadline (defaultFollowUpDays prefs) ->
  exists r,
    followUpEffect tz (Some prefs) (Some applied) deadline = SetFollowUpReminder r
    /\ match deadline with
       | None => dayNumber applied <= dayNumber r
       | Some dl =>
           if dayNumber dl - dayNumber applied <=? defaultFollowUpDays prefs
           then dayNumber r < dayNumber dl
                /\ (dayNumber applied <= dayNumber r
                    <-> dayNumber applied < dayNumber dl)
           else dayNumber applied <= dayNumber r
       end.
Proof.
  intros Ha Hd Hn Hmax Hs.
  exists (ruleDate applied deadline (defaultFollowUpDays prefs)). split.
  - apply followUpEffect_same_offset; try assumption. lia.
  - unfold ruleDate, ruleShift.
    destruct deadline as [dl|]; [|cbn [fst snd]; rewrite dayNumber_addDays; lia].
    case_ltb; cbn [fst snd]; rewrite dayNumber_addDays; lia.
Qed.

(** The bounds at work in New York, for a deadline four days away. *)
Lemma C3_reminder_bounds_witness :
  exists r,
    followUpEffect newYork2024 (Some sevenDays)
      (Some (mkDateStr 2024 1 1)) (Some (mkDateStr 2024 1 5))
    = SetFollowUpReminder r
    /\ (dayNumber r < dayNumber (mkDateStr 2024 1 5)
        /\ (dayNumber (mkDateStr 2024 1 1) <= dayNumber r
            <-> dayNumber (mkDateStr 2024 1 1) < dayNumber (mkDateStr 2024 1 5))).
Proof.
  apply (C3_reminder_bounds newYork2024 sevenDays
           (mkDateStr 2024 1 1) (Some (mkDateStr 2024 1 5)));
    vm_compute; congruence.
Defined.

(** C4.  For the applied date 2024-01-10, the deadline 2024-01-05 and
    n = 7 the difference in days is -5, which is at most 7, and the result
    is 2024-01-04, the day before the deadline and a date before the
    applied date: nothing guards against a deadline that precedes the
    applied date.  (In every host zone that keeps its offset from
    2024-01-04 to 2024-01-05.) *)
Theorem C4_deadline_before_applied tz st :
  offsetKept tz (mkDateStr 2024 1 10) (Some (mkDateStr 2024 1 5)) 7 ->
  daysDifference (newDate (mkDateStr 2024 1 10)) (newDate (mkDateStr 2024 1 5))
  = Some (-5)
  /\ num_le (Some (-5)) (Some 7) = true
  /\ followUpEffect tz (Some {| defaultStatus := st; defaultFollowUpDays := 7 |})
       (Some (mkDateStr 2024 1 10)) (Some (mkDateStr 2024 1 5))
     = SetFollowUpReminder (mkDateStr 2024 1 4)
  /\ addDays (mkDateStr 2024 1 5) (-1) = mkDateStr 2024 1 4
  /\ dayNumber (mkDateStr 2024 1 4) < dayNumber (mkDateStr 2024 1 10).
Proof.
  intros Hs. repeat split.
  rewrite followUpEffect_same_offset by (try exact Hs; vm_compute; congruence).
  reflexivity.
Qed.

(** The same in New York, where the offset is that of winter on both days. *)
Lemma C4_deadline_before_applied_witness :
  daysDifference (newDate (mkDateStr 2024 1 10)) (newDate (mkDateStr 2024 1 5))
  = Some (-5)
  /\ num_le (Some (-5)) (Some 7) = true
  /\ followUpEffect newYork2024 (Some sevenDays)
       (Some (mkDateStr 2024 1 10)) (Some (mkDateStr 2024 1 5))
     = SetFollowUpReminder (mkDateStr 2024 1 4)
  /\ addDays (mkDateStr 2024 1 5) (-1) = mkDateStr 2024 1 4
  /\ dayNumber (mkDateStr 2024 1 4) < dayNumber (mkDateStr 2024 1 10).
Proof.
  apply (C4_deadline_before_applied newYork2024 "APPLIED"). reflexivity.
Defined.

(** C5.  Claim: two runs on the same applied date, deadline and [n] give
    the same result, and the computation reads nothing but these three.
    The code breaks it: it also reads the host's time zone, and the same
    three inputs (2024-03-09, no deadline, 7) give 2024-03-16 in a host in
    UTC and 2024-03-15 in a host in New York. *)
Theorem C5_result_depends_on_host_zone :
  followUpEffect utcZone (Some sevenDays) (Some (mkDateStr 2024 3 9)) None
  = SetFollowUpReminder (mkDateStr 2024 3 16)
  /\ followUpEffect newYork2024 (Some sevenDays) (Some (mkDateStr 2024 3 9)) None
     = SetFollowUpReminder (mkDateStr 2024 3 15).
Proof. vm_compute. split; reflexivity. Qed.

(** ** The preferences route *)

Section PreferencesFacts.
Import PreferencesRoute.

Variable strToNum : string -> option Q.

Lemma prismaInt_number v z :
  prismaInt v = Some z -> exists q, v = JsNumber q /\ (q == inject_Z z)%Q.
Proof.
  destruct v as [| |b|q|s|p]; try discriminate. unfold prismaInt.
  destruct (_ && _) eqn:Hc; [|discriminate]. intros [= <-].
  apply andb_true_iff in Hc as [Hc _]. apply andb_true_iff in Hc as [Hden _].
  apply Z.eqb_eq in Hden.
  exists q. split; [reflexivity|].
  rewrite <- (Qred_correct q) at 1.
  destruct (Qred q) as [n d]. cbn [Qden Qnum] in *.
  assert (d = 1%positive) as -> by lia. reflexivity.
Qed.

(** A value the range check lets through and the column accepts is an
    integer from 1 to 30. *)
Lemma checked_days_in_range v z :
  lt_lit strToNum v 1 || gt_lit strToNum v 30 = false ->
  prismaInt v = Some z -> 1 <= z <= 30.
Proof.
  intros Hc Hp. apply prismaInt_number in Hp as (q & -> & Hq).
  apply orb_false_elim in Hc as [Hlt Hgt].
  unfold lt_lit, gt_lit in *. cbn in *.
  apply negb_false_iff, Qle_bool_iff in Hlt, Hgt.
  rewrite Hq in Hlt, Hgt. unfold Qle in *. cbn in *. lia.
Qed.

Lemma GET_keeps_range session db :
  inRange db -> inRange (snd (GET session db)).
Proof.
  intros Hin. unfold GET.
  destruct (session_email session) as [email|]; [|exact Hin].
  destruct (users db !! email) as [user|]; [|exact Hin].
  destruct (preferences db !! user_id user) eqn:Hp; [exact Hin|].
  intros uid p. cbn. rewrite lookup_insert.
  case_decide; [intros [= <-]; cbn; lia | apply Hin].
Qed.

(** No update stores a value outside 1..30. *)
Lemma PUT_keeps_range session defaultStatus defaultFollowUpDays db :
  inRange db ->
  inRange (snd (PUT strToNum session defaultStatus defaultFollowUpDays db)).
Proof.
  intros Hin. unfold PUT.
  destruct (session_email session) as [email|]; [|exact Hin].
  destruct (users db !! email) as [user|]; [|exact Hin].
  destruct (truthy defaultStatus && _); [exact Hin|].
  destruct (truthy defaultFollowUpDays && _) eqn:Hcheck; [exact Hin|].
  destruct (spreadIf prismaString defaultStatus) as [st|]; [|exact Hin].
  destruct (spreadIf prismaInt defaultFollowUpDays) as [days|] eqn:Hdays; [|exact Hin].
  assert (Hd : forall z, days = Some z -> 1 <= z <= 30).
  { intros z ->. unfold spreadIf in Hdays.
    destruct (truthy defaultFollowUpDays); [|discriminate].
    destruct (prismaInt defaultFollowUpDays) as [z'|] eqn:Hz; [|discriminate].
    injection Hdays as ->. eapply checked_days_in_range; eauto. }
  unfold upsert. intros uid p. cbn. rewrite lookup_insert.
  case_decide; [|apply Hin]. intros [= <-].
  destruct (preferences db !! user_id user) as [old|] eqn:Hold; cbn.
  - destruct days as [z|]; cbn; [apply Hd; reflexivity | eapply Hin; eauto].
  - destruct days as [z|]; cbn; [apply Hd; reflexivity | lia].
Qed.

(** A number other than zero outside 1..30 is rejected, and nothing is
    stored. *)
Lemma PUT_rejects_out_of_range session email user defaultStatus q db :
  session_email session = Some email -> users db !! email = Some user ->
  truthy defaultStatus && negb (includes validStatuses defaultStatus) = false ->
  ~ (q == 0)%Q -> (q < 1 \/ 30 < q)%Q ->
  PUT strToNum session defaultStatus (JsNumber q) db
  = (respond 400 (ErrorJson "Follow-up days must be between 1 and 30"), db).
Proof.
  intros He Hu Hst Hnz Hout. unfold PUT. rewrite He, Hu, Hst.
  assert (Ht : truthy (JsNumber q) = true).
  { cbn. apply negb_true_iff. destruct (Qeq_bool q 0) eqn:E; [|reflexivity].
    apply Qeq_bool_iff in E. contradiction. }
  assert (Hr : lt_lit strToNum (JsNumber q) 1 || gt_lit strToNum (JsNumber q) 30 = true).
  { unfold lt_lit, gt_lit. cbn. apply orb_true_iff.
    destruct Hout as [H|H]; [left|right]; apply negb_true_iff;
      (destruct (Qle_bool _ _) eqn:E; [|reflexivity]);
      apply Qle_bool_iff in E; exfalso; eapply Qlt_not_le; eauto. }
  rewrite Ht, Hr. reflexivity.
Qed.


Lemma PUT_preferences_keeps_reminders session defaultStatus defaultFollowUpDays db :
  reminders (snd (PUT strToNum session defaultStatus defaultFollowUpDays db))
  = reminders db.
Proof.
  unfold PUT.
  destruct (session_email session) as [email|]; [|reflexivity].
  destruct (users db !! email) as [user|]; [|reflexivity].
  destruct (truthy defaultStatus && _); [reflexivity|].
  destruct (truthy defaultFollowUpDays && _); [reflexivity|].
  destruct (spreadIf _ defaultStatus); [|reflexivity].
  destruct (spreadIf _ defaultFollowUpDays); reflexivity.
Qed.

End PreferencesFacts.

Example half_a_day_is_below_one :
  PreferencesRoute.PUT Scenario.noNumber Scenario.aliceSession JsUndefined
    (JsNumber (1 # 2)) (Scenario.dbWithDays 12)
  = (respond 400 (ErrorJson "Follow-up days must be between 1 and 30"),
     Scenario.dbWithDays 12).
Proof. reflexivity. Qed.

Example a_day_and_a_half_is_no_integer :
  PreferencesRoute.PUT Scenario.noNumber Scenario.aliceSession JsUndefined
    (JsNumber (3 # 2)) (Scenario.dbWithDays 12)
  = (respond 500 (ErrorJson "Failed to update preferences"), Scenario.dbWithDays 12).
Proof. reflexivity. Qed.

Example fifteen_days_are_stored :
  pref_defaultFollowUpDays
    <$> preferences
          (snd (PreferencesRoute.PUT Scenario.noNumber Scenario.aliceSession
                  JsUndefined (JsNumber 15) (Scenario.dbWithDays 12))) !! 1%nat
  = Some 15.
Proof. reflexivity. Qed.

Section PreferencesClaims.
Import PreferencesRoute Scenario.

(** C6.  Claim: every update whose defaultFollowUpDays is outside 1..30 or
    is not a positive integer is rejected with an error, and no value
    outside 1..30 is ever stored.  The code breaks the first half at 0: the
    check starts with the truth value of the field, 0 is falsy, and the
    update is answered 200 with the stored record (here 12 days) unchanged,
    while 31 and -1 draw the 400 the route announces.  ([PUT_keeps_range]
    has the second half.) *)
Theorem C6_zero_days_not_rejected :
  forall strToNum,
    PUT strToNum aliceSession JsUndefined (JsNumber 0) (dbWithDays 12)
    = (respond 200 (PreferencesJson
                      {| pref_userId := 1%nat; pref_defaultStatus := "APPLIED";
                         pref_defaultFollowUpDays := 12 |}),
       dbWithDays 12)
    /\ res_status (fst (PUT strToNum aliceSession JsUndefined (JsNumber 31)
                          (dbWithDays 12))) = 400
    /\ res_status (fst (PUT strToNum aliceSession JsUndefined (JsNumber (-1))
                          (dbWithDays 12))) = 400.
Proof. intros strToNum. vm_compute. repeat split. Qed.

(** C7.  Reading the preferences of a signed-in user returns the stored
    record when there is one, and changes nothing; when there is none, a
    record with defaultFollowUpDays = 7 is created, stored and returned,
    and the next read returns that stored record. *)
Theorem C7_get_preferences session email user db :
  session_email session = Some email ->
  users db !! email = Some user ->
  match preferences db !! user_id user with
  | Some p => GET session db = (respond 200 (PreferencesJson p), db)
  | None =>
      let p := defaultPreferences (user_id user) in
      let db' := snd (GET session db) in
      pref_defaultFollowUpDays p = 7
      /\ fst (GET session db) = respond 200 (PreferencesJson p)
      /\ preferences db' !! user_id user = Some p
      /\ (forall other, other <> user_id user ->
            preferences db' !! other = preferences db !! other)
      /\ GET session db' = (respond 200 (PreferencesJson p), db')
  end.
Proof.
  intros He Hu.
  destruct (preferences db !! user_id user) as [p|] eqn:Hp.
  - unfold GET. rewrite He, Hu, Hp. reflexivity.
  - cbv zeta.
    assert (Hget : GET session db
                   = (respond 200 (PreferencesJson (defaultPreferences (user_id user))),
                      set_preferences
                        (insert (user_id user) (defaultPreferences (user_id user))) db)).
    { unfold GET. rewrite He, Hu, Hp. reflexivity. }
    rewrite Hget. cbn [fst snd set_preferences preferences].
    repeat split.
    + apply lookup_insert_eq.
    + intros other Ho. apply lookup_insert_ne. congruence.
    + unfold GET. rewrite He. cbn [users set_preferences preferences].
      rewrite Hu, lookup_insert_eq. reflexivity.
Qed.

(** The first read of alice, who has no record yet. *)
Lemma C7_get_preferences_witness :
  pref_defaultFollowUpDays (defaultPreferences 1%nat) = 7
  /\ fst (GET aliceSession db0) = respond 200 (PreferencesJson (defaultPreferences 1%nat))
  /\ preferences (snd (GET aliceSession db0)) !! 1%nat = Some (defaultPreferences 1%nat)
  /\ (forall other, other <> 1%nat ->
        preferences (snd (GET aliceSession db0)) !! other = preferences db0 !! other)
  /\ GET aliceSession (snd (GET aliceSession db0))
     = (respond 200 (PreferencesJson (defaultPreferences 1%nat)),
        snd (GET aliceSession db0)).
Proof.
  apply (C7_get_preferences aliceSession "alice@example.org" alice db0); reflexivity.
Defined.

(** C10.  An update with defaultFollowUpDays = 0 is not rejected.  The
    number 0 is below 1, but it is falsy, so the range check is skipped
    and the key is left out of the update: the answer is 200, a stored
    value stays what it was, and 7 is stored when there was no record. *)
Theorem C10_zero_days_accepted strToNum session email user defaultStatus db :
  session_email session = Some email ->
  users db !! email = Some user ->
  truthy defaultStatus && negb (includes validStatuses defaultStatus) = false ->
  let out := PUT strToNum session defaultStatus (JsNumber 0) db in
  lt_lit strToNum (JsNumber 0) 1 = true
  /\ truthy (JsNumber 0) = false
  /\ res_status (fst out) = 200
  /\ pref_defaultFollowUpDays <$> preferences (snd out) !! user_id user
     = Some (from_option pref_defaultFollowUpDays 7 (preferences db !! user_id user)).
Proof.
  intros He Hu Hst. cbv zeta.
  split; [reflexivity|]. split; [reflexivity|].
  unfold PUT. rewrite He, Hu, Hst.
  change (truthy (JsNumber 0)) with false. cbn [andb].
  change (spreadIf prismaInt (JsNumber 0)) with (Some (@None Z)).
  assert (Hs : exists st, spreadIf prismaString defaultStatus = Some st).
  { unfold spreadIf. destruct (truthy defaultStatus) eqn:Ht; [|eauto].
    cbn in Hst. apply negb_false_iff in Hst.
    destruct defaultStatus; try discriminate. cbn. eauto. }
  destruct Hs as [st ->]. unfold upsert. cbn.
  split; [reflexivity|]. rewrite lookup_insert_eq.
  destruct (preferences db !! user_id user); reflexivity.
Qed.

(** Alice, with 12 days stored, sends 0. *)
Lemma C10_zero_days_accepted_witness :
  lt_lit noNumber (JsNumber 0) 1 = true
  /\ truthy (JsNumber 0) = false
  /\ res_status (fst (PUT noNumber aliceSession JsUndefined (JsNumber 0) (dbWithDays 12)))
     = 200
  /\ pref_defaultFollowUpDays
       <$> preferences (snd (PUT noNumber aliceSession JsUndefined (JsNumber 0)
                               (dbWithDays 12))) !! 1%nat
     = Some 12.
Proof.
  apply (C10_zero_days_accepted noNumber aliceSession "alice@example.org" alice
           JsUndefined (dbWithDays 12)); reflexivity.
Defined.

End PreferencesClaims.

(** ** The jobs routes *)

Section JobsFacts.
Import JobsRoute.

Variable V : Validators.

Lemma PUT_job_keeps_reminders now session id body db :
  reminders (snd (PUT V now session id body db)) = reminders db.
Proof.
  unfold PUT.
  destruct (session_id session) as [userId|]; [|reflexivity].
  destruct (updateJobSchema V body) as [data|]; [|reflexivity].
  destruct (findFirst id userId db) as [existingJob|]; [|reflexivity].
  destruct (dateUpdate (ud_appliedDate data)) as [newApplied|]; [|reflexivity].
  destruct (dateUpdate (ud_deadline data)) as [newDeadline|]; [|reflexivity].
  cbn [snd]. destruct (ud_status data) as [st|]; [|reflexivity].
  destruct (nonEmpty st && _); reflexivity.
Qed.

(** A request the route turns down creates nothing. *)
Lemma POST_rejected now session body db :
  session_id session = None \/ createJobSchema V body = None ->
  snd (POST V now session body db) = db.
Proof.
  unfold POST. intros [H|H].
  - rewrite H. reflexivity.
  - destruct (session_id session); [rewrite H|]; reflexivity.
Qed.

(** What the schema lets through of the follow-up field. *)
Lemma createJobSchema_followUp body data :
  createJobSchema V body = Some data ->
  optDateTime (b_followUpReminder body) = Some (cd_followUpReminder data)
  /\ b_position body = Some (cd_position data).
Proof.
  unfold createJobSchema. intros Hd.
  destruct (b_company body) as [c|]; [|discriminate].
  destruct (b_position body) as [p|]; [|discriminate]. cbn in Hd.
  destruct (optDateTime (b_appliedDate body)) as [a|]; [|discriminate].
  destruct (optDateTime (b_deadline body)) as [d|]; [|discriminate]. cbn in Hd.
  destruct (optDateTime (b_followUpReminder body)) as [f|]; [|discriminate].
  cbn in Hd. destruct (_ && _) in Hd; [|discriminate]. injection Hd as <-.
  split; reflexivity.
Qed.

End JobsFacts.

Section JobsClaims.
Import JobsRoute Scenario.

(** C8, the claim as stated fails: "whenever the applied date changes
    through an edit, the persisted follow-up reminder is recomputed".  An
    application made on 2024-01-01 with its reminder on 2024-01-08 is
    edited to the applied date 2024-02-01: the PUT answers 200 and stores
    the new applied date, for which the rule gives 2024-02-08, and the
    persisted reminder is still the one of 2024-01-08. *)
Lemma C8_edit_keeps_old_reminder :
  exists body,
    submitData editForm = Some body
    /\ res_status (fst (PUT anyString 0 aliceSession 2%nat body dbCreated)) = 200
    /\ appliedDate
         <$> jobApplications (snd (PUT anyString 0 aliceSession 2%nat body dbCreated))
             !! 2%nat
       = Some (midnight (mkDateStr 2024 2 1))
    /\ followUpEffect utcZone (Some sevenDays) (Some (mkDateStr 2024 2 1)) None
       = SetFollowUpReminder (mkDateStr 2024 2 8)
    /\ rem_remindAt
         <$> reminders (snd (PUT anyString 0 aliceSession 2%nat body dbCreated))
       = [midnight (mkDateStr 2024 1 8)]
    /\ midnight (mkDateStr 2024 1 8) <> midnight (mkDateStr 2024 2 8).
Proof.
  eexists. split; [reflexivity|].
  split; [vm_compute; reflexivity|].
  split; [vm_compute; reflexivity|].
  split; [vm_compute; reflexivity|].
  split; [rewrite PUT_job_keeps_reminders; vm_compute; reflexivity|].
  vm_compute. discriminate.
Qed.

(** C8, amended.  An edit of an application through PUT /api/jobs/[id],
    whatever applied date or deadline it carries, and an update of the
    user's preferences through PUT /api/user/preferences do not run the
    rule again: they leave every persisted reminder as it was. *)
Theorem C8_edits_keep_reminders V strToNum now session id body
    defaultStatus defaultFollowUpDays db :
  reminders (snd (PUT V now session id body db)) = reminders db
  /\ reminders (snd (PreferencesRoute.PUT strToNum session defaultStatus
                       defaultFollowUpDays db))
     = reminders db.
Proof.
  split; [apply PUT_job_keeps_reminders | apply PUT_preferences_keeps_reminders].
Qed.

(** C9.  The create route neither recomputes nor checks the follow-up
    date: for a signed-in user and a body the schema accepts, whatever the
    applied date, the deadline and the stored preferences are, a body that
    carries a followUpReminder date-time makes one reminder of type
    follow_up whose remindAt is that very instant, and a body without it
    makes no reminder. *)
Theorem C9_reminder_is_the_clients V now session userId body data db :
  session_id session = Some userId ->
  createJobSchema V body = Some data ->
  res_status (fst (POST V now session body db)) = 201
  /\ reminders (snd (POST V now session body db))
     = match b_followUpReminder body with
       | DfDateTime t =>
           reminders db
           ++ [ {| rem_jobApplicationId := nextId db;
                   rem_title := cd_position data +:+ " application";
                   rem_description := None;
                   rem_remindAt := t;
                   rem_reminderType := "follow_up" |} ]
       | _ => reminders db
       end.
Proof.
  intros Hs Hd. unfold POST. rewrite Hs, Hd. cbn [fst snd res_status respond].
  split; [reflexivity|].
  apply createJobSchema_followUp in Hd as [Hf _].
  cbn [position job_id].
  destruct (b_followUpReminder body); try discriminate;
    injection Hf as <-; reflexivity.
Qed.

(** Alice's request, with 30 days stored: the reminder is the one she sent. *)
Lemma C9_reminder_is_the_clients_witness :
  res_status (fst (POST anyString 0 aliceSession createBody (dbWithDays 30))) = 201
  /\ reminders (snd (POST anyString 0 aliceSession createBody (dbWithDays 30)))
     = [ {| rem_jobApplicationId := 2%nat;
            rem_title := "Engineer application";
            rem_description := None;
            rem_remindAt := midnight (mkDateStr 2024 1 8);
            rem_reminderType := "follow_up" |} ].
Proof.
  apply (C9_reminder_is_the_clients anyString 0 aliceSession 1%nat createBody
           {| cd_company := "Acme"; cd_position := "Engineer";
              cd_status := Some "APPLIED"%string;
              cd_appliedDate := Some (midnight (mkDateStr 2024 1 1));
              cd_deadline := None;
              cd_followUpReminder := Some (midnight (mkDateStr 2024 1 8));
              cd_details := formDetails |} (dbWithDays 30));
    reflexivity.
Defined.

End JobsClaims.

(** * More properties of the code *)

(** ** The follow-up effect *)

Section MoreOfTheEffect.
Import Scenario.

(** X1.  In a host whose offset from UTC is fixed, for valid dates and a
    number of days that keeps the result in the range of Date, the field
    receives the day before the deadline when the deadline is at most [n]
    days after the applied date, and [n] days after the applied date
    otherwise and when there is no deadline. *)
Theorem followUp_rule_in_fixed_zone offset prefs applied deadline :
  validDate applied = true ->
  from_option (fun d => validDate d = true) True deadline ->
  -90000000 <= defaultFollowUpDays prefs ->
  dayNumber applied + defaultFollowUpDays prefs <= 100000000 ->
  followUpEffect (fixedZone offset) (Some prefs) (Some applied) deadline
  = SetFollowUpReminder
      match deadline with
      | Some dl =>
          if dayNumber dl - dayNumber applied <=? defaultFollowUpDays prefs
          then addDays dl (-1)
          else addDays applied (defaultFollowUpDays prefs)
      | None => addDays applied (defaultFollowUpDays prefs)
      end.
Proof.
  intros Ha Hd Hn Hmax. rewrite followUpEffect_fixed by assumption.
  unfold ruleDate, ruleShift. destruct deadline as [dl|]; [|reflexivity].
  case_ltb; reflexivity.
Qed.

(** In a host at UTC+05:30, a deadline four days after 2024-03-05. *)
Lemma followUp_rule_in_fixed_zone_witness :
  followUpEffect (fixedZone 19800000) (Some sevenDays)
    (Some (mkDateStr 2024 3 5)) (Some (mkDateStr 2024 3 9))
  = SetFollowUpReminder (addDays (mkDateStr 2024 3 9) (-1)).
Proof.
  apply (followUp_rule_in_fixed_zone 19800000 sevenDays
           (mkDateStr 2024 3 5) (Some (mkDateStr 2024 3 9)));
    vm_compute; congruence.
Defined.

(** X2.  In any host zone the field receives the date of the rule moved by
    the whole days of the drift: the offset at the start of the shift less
    the offset at its target, which is at most a day either way. *)
Theorem followUp_in_any_zone tz prefs applied deadline :
  validDate applied = true ->
  from_option (fun d => validDate d = true) True deadline ->
  -90000000 <= defaultFollowUpDays prefs ->
  dayNumber applied + defaultFollowUpDays prefs < 100000000 ->
  - msPerDay
  <= zoneDrift tz
       (dayNumber (fst (ruleShift applied deadline (defaultFollowUpDays prefs)))
        * msPerDay)
       (snd (ruleShift applied deadline (defaultFollowUpDays prefs)))
  <= msPerDay ->
  followUpEffect tz (Some prefs) (Some applied) deadline
  = SetFollowUpReminder
      (addDays (ruleDate applied deadline (defaultFollowUpDays prefs))
         (Day (zoneDrift tz
                 (dayNumber (fst (ruleShift applied deadline
                                    (defaultFollowUpDays prefs))) * msPerDay)
                 (snd (ruleShift applied deadline (defaultFollowUpDays prefs)))))).
Proof.
  intros Ha Hd Hn Hmax Hdrift.
  rewrite (followUpEffect_drift tz prefs applied deadline Ha Hd Hn Hmax Hdrift).
  unfold ruleDate, addDays. rewrite dayNumber_dateOfDay. do 2 f_equal. lia.
Qed.

(** New York, seven days from 2024-03-05: the drift is minus one hour, a
    whole day down. *)
Lemma followUp_in_any_zone_witness :
  followUpEffect newYork2024 (Some sevenDays) (Some (mkDateStr 2024 3 5)) None
  = SetFollowUpReminder
      (addDays (ruleDate (mkDateStr 2024 3 5) None 7) (Day (- msPerHour))).
Proof.
  apply (followUp_in_any_zone newYork2024 sevenDays (mkDateStr 2024 3 5) None);
    vm_compute; (congruence || (split; congruence)).
Defined.



(** X4.  With a deadline the reminder is always strictly before it, in
    either branch (valid dates, a host that keeps its offset over the
    shift). *)
Theorem reminder_before_any_deadline tz prefs applied deadline :
  validDate applied = true ->
  validDate deadline = true ->
  -90000000 <= defaultFollowUpDays prefs ->
  dayNumber applied + defaultFollowUpDays prefs <= 100000000 ->
  offsetKept tz applied (Some deadline) (defaultFollowUpDays prefs) ->
  exists r,
    followUpEffect tz (Some prefs) (Some applied) (Some deadline)
    = SetFollowUpReminder r
    /\ dayNumber r < dayNumber deadline.
Proof.
  intros Ha Hd Hn Hmax Hs. eexists. split.
  - apply followUpEffect_same_offset; assumption.
  - unfold ruleDate, ruleShift. case_ltb; cbn [fst snd];
      rewrite dayNumber_addDays; lia.
Qed.

Lemma reminder_before_any_deadline_witness :
  exists r,
    followUpEffect newYork2024 (Some sevenDays)
      (Some (mkDateStr 2024 1 1)) (Some (mkDateStr 2024 3 1))
    = SetFollowUpReminder r
    /\ dayNumber r < dayNumber (mkDateStr 2024 3 1).
Proof.
  apply (reminder_before_any_deadline newYork2024 sevenDays
           (mkDateStr 2024 1 1) (mkDateStr 2024 3 1));
    vm_compute; congruence.
Defined.

End MoreOfTheEffect.

(** ** The preferences route *)

Section MoreOfThePreferences.
Import PreferencesRoute Frames Scenario.

Lemma truthy_number q : ~ (q == 0)%Q -> truthy (JsNumber q) = true.
Proof.
  intros Hnz. cbn. apply negb_true_iff.
  destruct (Qeq_bool q 0) eqn:E; [|reflexivity].
  apply Qeq_bool_iff in E. contradiction.
Qed.

Lemma prismaInt_integer d :
  - 2 ^ 31 <= d < 2 ^ 31 -> prismaInt (JsNumber (inject_Z d)) = Some d.
Proof.
  intros Hd. unfold prismaInt.
  assert (Hr : Qred (inject_Z d) = inject_Z d).
  { unfold Qred, inject_Z. pose proof (Z.ggcd_gcd d 1) as Hg.
    pose proof (Z.ggcd_correct_divisors d 1) as Hc.
    destruct (Z.ggcd d 1) as [g [a b]]. cbn [fst snd] in *.
    rewrite Z.gcd_1_r in Hg. subst g. destruct Hc as [Ha Hb].
    assert (a = d) as -> by lia. assert (b = 1) as -> by lia. reflexivity. }
  rewrite Hr. cbn [Qden Qnum inject_Z].
  replace (- 2 ^ 31 <=? d) with true by (symmetry; apply Z.leb_le; lia).
  replace (d <? 2 ^ 31) with true by (symmetry; apply Z.ltb_lt; lia).
  reflexivity.
Qed.

Lemma in_validStatuses s :
  In s validStatuses ->
  truthy (JsString s) = true /\ includes validStatuses (JsString s) = true.
Proof.
  unfold validStatuses. cbn [In].
  intros H. repeat (destruct H as [<-|H]; [split; reflexivity|]). contradiction.
Qed.

Lemma days_pass_the_check strToNum d :
  1 <= d <= 30 ->
  truthy (JsNumber (inject_Z d)) = true
  /\ lt_lit strToNum (JsNumber (inject_Z d)) 1
     || gt_lit strToNum (JsNumber (inject_Z d)) 30 = false.
Proof.
  intros Hd. split.
  - apply truthy_number. unfold Qeq. cbn. lia.
  - unfold lt_lit, gt_lit. cbn [ToNumber]. apply orb_false_intro;
      apply negb_false_iff, Qle_bool_iff; unfold Qle; cbn; lia.
Qed.

(** X5.  The range the route announces is an invariant of the table:
    from a store whose follow-up days all lie in 1..30, neither a GET
    (which may create the default record) nor a PUT with any body leads to
    a store with a value outside it. *)
Theorem preferences_stay_in_range strToNum session defaultStatus defaultFollowUpDays db :
  inRange db ->
  inRange (snd (GET session db))
  /\ inRange (snd (PUT strToNum session defaultStatus defaultFollowUpDays db)).
Proof.
  intros Hin. split; [apply GET_keeps_range | apply PUT_keeps_range]; exact Hin.
Qed.



Lemma inRange_dbWithDays n : 1 <= n <= 30 -> inRange (dbWithDays n).
Proof.
  intros Hn uid p. unfold dbWithDays, set_preferences, db0. cbn [preferences].
  rewrite lookup_insert.
  case_decide; [intros [= <-]; cbn; lia | rewrite lookup_empty; discriminate].
Qed.

(** A store with 12 days, and an update that asks for 30. *)
Lemma preferences_stay_in_range_witness :
  inRange (snd (GET aliceSession (dbWithDays 12)))
  /\ inRange (snd (PUT noNumber aliceSession JsUndefined (JsNumber 30) (dbWithDays 12))).
Proof.
  apply (preferences_stay_in_range noNumber aliceSession JsUndefined (JsNumber 30)
           (dbWithDays 12)).
  apply inRange_dbWithDays. lia.
Defined.

(** X7.  An update merges and can be read back: with a status that is
    absent or one of the eight, and days that are absent or an integer
    from 1 to 30, the PUT answers 200 with the record in which each field
    sent replaces the stored one and each field not sent keeps it (APPLIED
    and 7 when the record is created), and the GET that follows returns
    that same record and changes nothing. *)
Theorem update_merges_and_reads_back strToNum session email user status days db :
  session_email session = Some email ->
  users db !! email = Some user ->
  from_option (fun s => In s validStatuses) True status ->
  from_option (fun d => 1 <= d <= 30) True days ->
  let old := preferences db !! user_id user in
  let p :=
    {| pref_userId := from_option pref_userId (user_id user) old;
       pref_defaultStatus :=
         default (from_option pref_defaultStatus "APPLIED"%string old) status;
       pref_defaultFollowUpDays :=
         default (from_option pref_defaultFollowUpDays 7 old) days |} in
  let out :=
    PUT strToNum session (from_option JsString JsUndefined status)
      (from_option (fun d => JsNumber (inject_Z d)) JsUndefined days) db in
  fst out = respond 200 (PreferencesJson p)
  /\ preferences (snd out) !! user_id user = Some p
  /\ GET session (snd out) = (respond 200 (PreferencesJson p), snd out).
Proof.
  intros He Hu Hst Hdays. cbv zeta.
  set (p := {| pref_userId := _ |}).
  assert (Hput :
    PUT strToNum session (from_option JsString JsUndefined status)
      (from_option (fun d => JsNumber (inject_Z d)) JsUndefined days) db
    = (respond 200 (PreferencesJson p),
       set_preferences (insert (user_id user) p) db)).
  { unfold PUT. rewrite He, Hu.
    assert (Hs : truthy (from_option JsString JsUndefined status)
                 && negb (includes validStatuses (from_option JsString JsUndefined status))
                 = false
                 /\ spreadIf prismaString (from_option JsString JsUndefined status)
                    = Some status).
    { destruct status as [s|]; cbn [from_option] in *; [|split; reflexivity].
      apply in_validStatuses in Hst as [Ht Hi]. unfold spreadIf.
      rewrite Ht, Hi. split; reflexivity. }
    destruct Hs as [-> ->].
    assert (Hd : truthy (from_option (fun d => JsNumber (inject_Z d)) JsUndefined days)
                 && (lt_lit strToNum
                       (from_option (fun d => JsNumber (inject_Z d)) JsUndefined days) 1
                     || gt_lit strToNum
                          (from_option (fun d => JsNumber (inject_Z d)) JsUndefined days) 30)
                 = false
                 /\ spreadIf prismaInt
                      (from_option (fun d => JsNumber (inject_Z d)) JsUndefined days)
                    = Some days).
    { destruct days as [d|]; cbn [from_option] in *; [|split; reflexivity].
      destruct (days_pass_the_check strToNum d Hdays) as [Ht Hc]. unfold spreadIf.
      rewrite Ht, Hc, prismaInt_integer by lia. split; reflexivity. }
    destruct Hd as [-> ->].
    unfold upsert. subst p.
    destruct (preferences db !! user_id user) as [old|];
      destruct status, days; reflexivity. }
  rewrite Hput. cbn [fst snd]. split; [reflexivity|].
  split; [apply lookup_insert_eq|].
  unfold GET. rewrite He. cbn [users set_preferences preferences].
  rewrite Hu, lookup_insert_eq. reflexivity.
Qed.

(** Alice, with 12 days stored, sets the status only. *)
Lemma update_merges_and_reads_back_witness :
  let p := {| pref_userId := 1%nat; pref_defaultStatus := "OFFER";
              pref_defaultFollowUpDays := 12 |} in
  let out := PUT noNumber aliceSession (JsString "OFFER") JsUndefined (dbWithDays 12) in
  fst out = respond 200 (PreferencesJson p)
  /\ preferences (snd out) !! 1%nat = Some p
  /\ GET aliceSession (snd out) = (respond 200 (PreferencesJson p), snd out).
Proof.
  apply (update_merges_and_reads_back noNumber aliceSession "alice@example.org" alice
           (Some "OFFER"%string) None (dbWithDays 12));
    try reflexivity.
  cbn. tauto.
Defined.

(** X8.  Both handlers stay within the caller's own row: whatever the
    body is, the other users' preferences, the users, the applications,
    their events and reminders and the id counter are as before. *)
Theorem preferences_touch_one_row strToNum session email user
    defaultStatus defaultFollowUpDays db :
  session_email session = Some email ->
  users db !! email = Some user ->
  onlyPreferencesOf (user_id user) db (snd (GET session db))
  /\ onlyPreferencesOf (user_id user) db
       (snd (PUT strToNum session defaultStatus defaultFollowUpDays db)).
Proof.
  intros He Hu. unfold onlyPreferencesOf. split.
  - unfold GET. rewrite He, Hu.
    destruct (preferences db !! user_id user); cbn; repeat split.
    apply delete_insert_eq.
  - unfold PUT. rewrite He, Hu.
    destruct (truthy defaultStatus && _); [repeat split|].
    destruct (truthy defaultFollowUpDays && _); [repeat split|].
    destruct (spreadIf _ defaultStatus); [|repeat split].
    destruct (spreadIf _ defaultFollowUpDays); [|repeat split].
    unfold upsert. cbn. repeat split. apply delete_insert_eq.
Qed.

Lemma preferences_touch_one_row_witness :
  onlyPreferencesOf 1%nat (dbWithDays 12) (snd (GET aliceSession (dbWithDays 12)))
  /\ onlyPreferencesOf 1%nat (dbWithDays 12)
       (snd (PUT noNumber aliceSession (JsString "OFFER") (JsNumber 3) (dbWithDays 12))).
Proof.
  apply (preferences_touch_one_row noNumber aliceSession "alice@example.org" alice
           (JsString "OFFER") (JsNumber 3) (dbWithDays 12)); reflexivity.
Defined.

End MoreOfThePreferences.

(** ** The routes of the applications *)

Section MoreOfTheJobs.
Import JobsRoute JobItemRoute Frames Forms Scenario Cases.

Lemma findFirst_Some id userId db j :
  findFirst id userId db = Some j <->
  jobApplications db !! id = Some j /\ job_userId j = userId.
Proof.
  unfold findFirst. destruct (jobApplications db !! id) as [j0|].
  - destruct (Nat.eqb (job_userId j0) userId) eqn:E.
    + apply Nat.eqb_eq in E. split; [intros [= <-]; auto | intros [[= <-] _]; auto].
    + apply Nat.eqb_neq in E. split; [discriminate|].
      intros [[= <-] H]. contradiction.
  - split; [discriminate | intros [? _]; discriminate].
Qed.

(** What a PUT does, case by case: an error that leaves the store alone,
    or the caller's row replaced by [updatedRow] and the status event
    added. *)
Lemma PUT_cases V now session id body db :
  (400 <= res_status (fst (PUT V now session id body db))
   /\ snd (PUT V now session id body db) = db)
  \/ exists userId data existingJob newApplied newDeadline,
       session_id session = Some userId
       /\ updateJobSchema V body = Some data
       /\ findFirst id userId db = Some existingJob
       /\ dateUpdate (ud_appliedDate data) = Some newApplied
       /\ dateUpdate (ud_deadline data) = Some newDeadline
       /\ PUT V now session id body db
          = (respond 200 (JobJson (updatedRow existingJob data newApplied newDeadline)),
             {| users := users db; preferences := preferences db;
                jobApplications :=
                  <[id := updatedRow existingJob data newApplied newDeadline]>
                    (jobApplications db);
                applicationEvents :=
                  applicationEvents db ++ statusEvents now id existingJob data;
                reminders := reminders db; nextId := nextId db |}).
Proof.
  unfold PUT.
  destruct (session_id session) as [userId|]; [|left; cbn; split; [lia|reflexivity]].
  destruct (updateJobSchema V body) as [data|]; [|left; cbn; split; [lia|reflexivity]].
  destruct (findFirst id userId db) as [existingJob|] eqn:Hf;
    [|left; cbn; split; [lia|reflexivity]].
  destruct (dateUpdate (ud_appliedDate data)) as [newApplied|] eqn:Ha;
    [|left; cbn; split; [lia|reflexivity]].
  destruct (dateUpdate (ud_deadline data)) as [newDeadline|] eqn:Hd;
    [|left; cbn; split; [lia|reflexivity]].
  right. exists userId, data, existingJob, newApplied, newDeadline.
  do 5 (split; [first [reflexivity | assumption]|]).
  unfold statusEvents, updatedRow. destruct (ud_status data) as [st|].
  - destruct (nonEmpty st && _); cbn; rewrite ?app_nil_r; reflexivity.
  - cbn. rewrite app_nil_r. reflexivity.
Qed.

(** What a POST does when it is let through. *)
Lemma POST_accepted V now session userId body data db :
  session_id session = Some userId ->
  createJobSchema V body = Some data ->
  let j := {| job_id := nextId db; job_userId := userId;
              company := cd_company data; position := cd_position data;
              status := default "APPLIED"%string (cd_status data);
              appliedDate := default now (cd_appliedDate data);
              deadline := cd_deadline data; details := cd_details data |} in
  fst (POST V now session body db) = respond 201 (JobJson j)
  /\ users (snd (POST V now session body db)) = users db
  /\ preferences (snd (POST V now session body db)) = preferences db
  /\ jobApplications (snd (POST V now session body db))
     = <[nextId db := j]> (jobApplications db)
  /\ nextId (snd (POST V now session body db)) = S (nextId db)
  /\ (exists e, applicationEvents (snd (POST V now session body db))
                = applicationEvents db ++ [e]
                /\ ev_jobApplicationId e = nextId db)
  /\ (exists rs, reminders (snd (POST V now session body db)) = reminders db ++ rs
                 /\ Forall (fun r => rem_jobApplicationId r = nextId db) rs).
Proof.
  intros Hs Hd. unfold POST. rewrite Hs, Hd. cbn [fst snd].
  do 5 (split; [destruct (cd_followUpReminder data); reflexivity|]). split.
  - eexists. split; [destruct (cd_followUpReminder data); reflexivity|reflexivity].
  - destruct (cd_followUpReminder data) as [f|]; cbn.
    + eexists. split; [reflexivity|]. repeat constructor.
    + exists []. rewrite app_nil_r. split; [reflexivity|constructor].
Qed.

Lemma DELETE_cases cascade session id db :
  (400 <= rep_status (fst (DELETE cascade session id db))
   /\ snd (DELETE cascade session id db) = db)
  \/ exists userId existingJob db',
       session_id session = Some userId
       /\ findFirst id userId db = Some existingJob
       /\ deleteJob cascade id db = Some db'
       /\ DELETE cascade session id db
          = (reply 200 (MessagePayload "Job application deleted successfully"), db').
Proof.
  unfold DELETE.
  destruct (session_id session) as [userId|]; [|left; cbn; split; [lia|reflexivity]].
  destruct (findFirst id userId db) as [existingJob|] eqn:Hf;
    [|left; cbn; split; [lia|reflexivity]].
  destruct (deleteJob cascade id db) as [db'|] eqn:Hd;
    [|left; cbn; split; [lia|reflexivity]].
  right. exists userId, existingJob, db'.
  do 3 (split; [first [reflexivity | assumption]|]). reflexivity.
Qed.

Lemma existsb_false_filter {A} (f : A -> bool) (l : list A) :
  existsb f l = false -> List.filter (fun x => negb (f x)) l = l.
Proof.
  induction l as [|a l IH]; [reflexivity|]. cbn.
  intros H. apply orb_false_elim in H as [Ha Hl]. rewrite Ha. cbn.
  f_equal. exact (IH Hl).
Qed.

(** What a delete that goes through leaves: the application is gone,
    with every event and reminder of it, and the rest is as before. *)
Lemma deleteJob_Some cascade id db db' :
  deleteJob cascade id db = Some db' ->
  users db' = users db
  /\ preferences db' = preferences db
  /\ jobApplications db' = delete id (jobApplications db)
  /\ applicationEvents db'
     = List.filter (fun e => negb (Nat.eqb (ev_jobApplicationId e) id))
         (applicationEvents db)
  /\ reminders db'
     = List.filter (fun r => negb (Nat.eqb (rem_jobApplicationId r) id))
         (reminders db)
  /\ nextId db' = nextId db.
Proof.
  unfold deleteJob. destruct cascade.
  - intros [= <-]. repeat split.
  - destruct (hasRelated id db) eqn:Hr; [discriminate|]. intros [= <-].
    unfold hasRelated in Hr. apply orb_false_elim in Hr as [He Hm]. cbn.
    rewrite (existsb_false_filter _ _ He), (existsb_false_filter _ _ Hm).
    repeat split.
Qed.

(** X9.  An answer with an error status means that nothing was written:
    for the five handlers that write to the store, whatever the request
    is, either the status is below 400 or the store is as before.  (The
    errors are those the handlers show: a missing session, a missing row,
    a body or a value that is refused.  A database that fails between two
    writes is not part of the model.) *)
Theorem errors_change_nothing V strToNum now cascade session id body
    defaultStatus defaultFollowUpDays db :
  (res_status (fst (PreferencesRoute.GET session db)) < 400
   \/ snd (PreferencesRoute.GET session db) = db)
  /\ (res_status (fst (PreferencesRoute.PUT strToNum session defaultStatus
                         defaultFollowUpDays db)) < 400
      \/ snd (PreferencesRoute.PUT strToNum session defaultStatus
                defaultFollowUpDays db) = db)
  /\ (res_status (fst (POST V now session body db)) < 400
      \/ snd (POST V now session body db) = db)
  /\ (res_status (fst (PUT V now session id body db)) < 400
      \/ snd (PUT V now session id body db) = db)
  /\ (rep_status (fst (DELETE cascade session id db)) < 400
      \/ snd (DELETE cascade session id db) = db).
Proof.
  repeat split.
  - unfold PreferencesRoute.GET.
    destruct (session_email session) as [email|]; [|right; reflexivity].
    destruct (users db !! email) as [user|]; [|right; reflexivity].
    destruct (preferences db !! user_id user); left; cbn; lia.
  - unfold PreferencesRoute.PUT.
    destruct (session_email session) as [email|]; [|right; reflexivity].
    destruct (users db !! email) as [user|]; [|right; reflexivity].
    destruct (truthy defaultStatus && _); [right; reflexivity|].
    destruct (truthy defaultFollowUpDays && _); [right; reflexivity|].
    destruct (PreferencesRoute.spreadIf _ defaultStatus); [|right; reflexivity].
    destruct (PreferencesRoute.spreadIf _ defaultFollowUpDays); [|right; reflexivity].
    left. cbn. lia.
  - unfold POST.
    destruct (session_id session) as [userId|]; [|right; reflexivity].
    destruct (createJobSchema V body); [left; cbn; lia | right; reflexivity].
  - destruct (PUT_cases V now session id body db) as [[_ H]|H]; [right; exact H|].
    destruct H as (userId & data & j & a & d & _ & _ & _ & _ & _ & ->).
    left. cbn. lia.
  - destruct (DELETE_cases cascade session id db) as [[_ H]|H]; [right; exact H|].
    destruct H as (userId & j & db' & _ & _ & _ & ->). left. cbn. lia.
Qed.

(** X10.  An application of another user is out of reach: to a signed-in
    user who does not own it, GET and DELETE answer that there is no such
    application, PUT answers that or turns the body down, and neither
    writes anything. *)
Theorem foreign_application_is_out_of_reach V now cascade session userId id j body db :
  session_id session = Some userId ->
  jobApplications db !! id = Some j ->
  job_userId j <> userId ->
  JobItemRoute.GET session id db
  = reply 404 (ErrorPayload "Job application not found")
  /\ (fst (PUT V now session id body db)
      = respond 404 (ErrorJson "Job application not found")
      \/ fst (PUT V now session id body db) = respond 400 (ErrorJson "Invalid input"))
  /\ snd (PUT V now session id body db) = db
  /\ DELETE cascade session id db
     = (reply 404 (ErrorPayload "Job application not found"), db).
Proof.
  intros Hs Hj Hne.
  assert (Hf : findFirst id userId db = None).
  { destruct (findFirst id userId db) as [j0|] eqn:Hf; [|reflexivity].
    apply findFirst_Some in Hf as [Hj0 Hu]. congruence. }
  unfold JobItemRoute.GET, PUT, DELETE. rewrite Hs, Hf.
  split; [reflexivity|].
  destruct (updateJobSchema V body); cbn; auto.
Qed.

(** Bob asks for alice's application. *)
Lemma foreign_application_is_out_of_reach_witness :
  JobItemRoute.GET bobSession 2%nat dbTwoUsers
  = reply 404 (ErrorPayload "Job application not found")
  /\ (fst (PUT anyString 0 bobSession 2%nat createBody dbTwoUsers)
      = respond 404 (ErrorJson "Job application not found")
      \/ fst (PUT anyString 0 bobSession 2%nat createBody dbTwoUsers)
         = respond 400 (ErrorJson "Invalid input"))
  /\ snd (PUT anyString 0 bobSession 2%nat createBody dbTwoUsers) = dbTwoUsers
  /\ DELETE true bobSession 2%nat dbTwoUsers
     = (reply 404 (ErrorPayload "Job application not found"), dbTwoUsers).
Proof.
  eapply (foreign_application_is_out_of_reach anyString 0 true bobSession 5%nat 2%nat).
  - reflexivity.
  - vm_compute. reflexivity.
  - cbn. lia.
Defined.

Lemma idsInUse_fresh db : idsInUse db -> jobApplications db !! nextId db = None.
Proof.
  intros Hi. destruct (jobApplications db !! nextId db) as [j|] eqn:Hj; [|reflexivity].
  apply Hi in Hj as [Hlt _]. lia.
Qed.

(** X11.  A created application is the caller's, can be read back at once
    under the id the answer carries, and takes the place of no other: in
    a store whose ids lie below the id counter, every application stored
    before is stored unchanged after. *)
Theorem created_application_is_stored V now session userId body data db :
  session_id session = Some userId ->
  createJobSchema V body = Some data ->
  idsInUse db ->
  exists j,
    fst (POST V now session body db) = respond 201 (JobJson j)
    /\ job_userId j = userId
    /\ JobItemRoute.GET session (job_id j) (snd (POST V now session body db))
       = reply 200 (JobPayload j)
    /\ jobApplications db ⊆ jobApplications (snd (POST V now session body db)).
Proof.
  intros Hs Hd Hi.
  destruct (POST_accepted V now session userId body data db Hs Hd)
    as (Hfst & _ & _ & Hjobs & _).
  eexists. split; [exact Hfst|]. split; [reflexivity|]. split.
  - unfold JobItemRoute.GET, findFirst. rewrite Hs, Hjobs. cbn [job_id].
    rewrite lookup_insert_eq. cbn [job_userId]. rewrite Nat.eqb_refl. reflexivity.
  - rewrite Hjobs. apply insert_subseteq, idsInUse_fresh, Hi.
Qed.

Lemma idsInUse_dbWithDays n : idsInUse (dbWithDays n).
Proof. intros id j. cbn. rewrite lookup_empty. discriminate. Qed.

Lemma created_application_is_stored_witness :
  exists j,
    fst (POST anyString 0 aliceSession createBody (dbWithDays 7)) = respond 201 (JobJson j)
    /\ job_userId j = 1%nat
    /\ JobItemRoute.GET aliceSession (job_id j)
         (snd (POST anyString 0 aliceSession createBody (dbWithDays 7)))
       = reply 200 (JobPayload j)
    /\ jobApplications (dbWithDays 7)
       ⊆ jobApplications (snd (POST anyString 0 aliceSession createBody (dbWithDays 7))).
Proof.
  eapply (created_application_is_stored anyString 0 aliceSession 1%nat createBody).
  - reflexivity.
  - reflexivity.
  - apply idsInUse_dbWithDays.
Defined.

Lemma POST_keeps_order V now session body db :
  idsInUse db /\ related db ->
  idsInUse (snd (POST V now session body db))
  /\ related (snd (POST V now session body db)).
Proof.
  intros [Hi Hr].
  destruct (session_id session) as [userId|] eqn:Hs;
    [|unfold POST; rewrite Hs; split; assumption].
  destruct (createJobSchema V body) as [data|] eqn:Hd;
    [|unfold POST; rewrite Hs, Hd; split; assumption].
  destruct (POST_accepted V now session userId body data db Hs Hd)
    as (_ & _ & _ & Hjobs & Hnext & (e & Hev & He) & (rs & Hrem & Hrs)).
  split.
  - intros id j. rewrite Hjobs, Hnext, lookup_insert. case_decide as Hc.
    + intros [= <-]. cbn. split; [lia | congruence].
    + intros Hj. apply Hi in Hj as [Hlt Hid]. split; [lia | exact Hid].
  - destruct Hr as [Hre Hrr]. unfold related. rewrite Hjobs, Hev, Hrem. split.
    + apply Forall_app. split.
      * eapply Forall_impl; [exact Hre|]. intros x Hx.
        apply lookup_insert_is_Some'. right. exact Hx.
      * repeat constructor. rewrite He, lookup_insert_eq. eauto.
    + apply Forall_app. split.
      * eapply Forall_impl; [exact Hrr|]. intros x Hx.
        apply lookup_insert_is_Some'. right. exact Hx.
      * eapply Forall_impl; [exact Hrs|]. intros x ->.
        rewrite lookup_insert_eq. eauto.
Qed.

Lemma statusEvents_id now id j data :
  Forall (fun e => ev_jobApplicationId e = id) (statusEvents now id j data).
Proof.
  unfold statusEvents. destruct (ud_status data) as [st|]; [|constructor].
  destruct (nonEmpty st && _); repeat constructor.
Qed.

Lemma PUT_keeps_order V now session id body db :
  idsInUse db /\ related db ->
  idsInUse (snd (PUT V now session id body db))
  /\ related (snd (PUT V now session id body db)).
Proof.
  intros [Hi Hr].
  destruct (PUT_cases V now session id body db) as [[_ ->]|H]; [split; assumption|].
  destruct H as (userId & data & j & a & d & _ & _ & Hf & _ & _ & ->).
  apply findFirst_Some in Hf as [Hj _]. cbn [snd]. split.
  - intros k j'. cbn [jobApplications nextId]. rewrite lookup_insert.
    case_decide as Hc.
    + intros [= <-]. subst k. cbn [job_id updatedRow]. apply Hi. exact Hj.
    + apply Hi.
  - destruct Hr as [Hre Hrr]. unfold related.
    cbn [jobApplications applicationEvents reminders]. split.
    + apply Forall_app. split.
      * eapply Forall_impl; [exact Hre|]. intros x Hx.
        apply lookup_insert_is_Some'. right. exact Hx.
      * eapply Forall_impl; [apply statusEvents_id|]. intros x ->.
        rewrite lookup_insert_eq. eauto.
    + eapply Forall_impl; [exact Hrr|]. intros x Hx.
      apply lookup_insert_is_Some'. right. exact Hx.
Qed.

Lemma Forall_filter_others {A} (key : A -> Id) (id : Id) (jobs : gmap Id JobApplication)
    (l : list A) :
  Forall (fun x => is_Some (jobs !! key x)) l ->
  Forall (fun x => is_Some (delete id jobs !! key x))
    (List.filter (fun x => negb (Nat.eqb (key x) id)) l).
Proof.
  induction 1 as [|x l Hx _ IH]; [constructor|]. cbn.
  destruct (Nat.eqb (key x) id) eqn:E; cbn; [exact IH|].
  constructor; [|exact IH]. apply Nat.eqb_neq in E.
  rewrite lookup_delete_ne by congruence. exact Hx.
Qed.

Lemma DELETE_keeps_order cascade session id db :
  idsInUse db /\ related db ->
  idsInUse (snd (DELETE cascade session id db))
  /\ related (snd (DELETE cascade session id db)).
Proof.
  intros [Hi Hr].
  destruct (DELETE_cases cascade session id db) as [[_ ->]|H]; [split; assumption|].
  destruct H as (userId & j & db' & _ & _ & Hd & ->). cbn [snd].
  apply deleteJob_Some in Hd as (_ & _ & Hjobs & Hev & Hrem & Hnext). split.
  - intros k j'. rewrite Hjobs, Hnext. intros Hk.
    apply lookup_delete_Some in Hk as [_ Hk]. apply Hi. exact Hk.
  - destruct Hr as [Hre Hrr]. unfold related. rewrite Hjobs, Hev, Hrem.
    split; apply Forall_filter_others; assumption.
Qed.

(** X12.  The three handlers that write applications keep the tables in
    order: if the ids in use lie below the id counter, each application is
    stored under its own id, and every event and reminder belongs to a
    stored application, then the same holds after a POST, a PUT and a
    DELETE with any request (whether the schema deletes the events and
    reminders with their application or refuses the delete). *)
Theorem routes_keep_the_tables_in_order V now cascade session id body db :
  idsInUse db /\ related db ->
  (idsInUse (snd (POST V now session body db))
   /\ related (snd (POST V now session body db)))
  /\ (idsInUse (snd (PUT V now session id body db))
      /\ related (snd (PUT V now session id body db)))
  /\ (idsInUse (snd (DELETE cascade session id db))
      /\ related (snd (DELETE cascade session id db))).
Proof.
  intros H. split; [|split].
  - apply POST_keeps_order, H.
  - apply PUT_keeps_order, H.
  - apply DELETE_keeps_order, H.
Qed.

Lemma order_dbWithDays n : idsInUse (dbWithDays n) /\ related (dbWithDays n).
Proof. split; [apply idsInUse_dbWithDays | split; constructor]. Qed.

Lemma order_dbCreated : idsInUse dbCreated /\ related dbCreated.
Proof. apply POST_keeps_order, order_dbWithDays. Qed.

(** From the store that holds alice's application. *)
Lemma routes_keep_the_tables_in_order_witness :
  (idsInUse (snd (POST anyString 0 aliceSession createBody dbCreated))
   /\ related (snd (POST anyString 0 aliceSession createBody dbCreated)))
  /\ (idsInUse (snd (PUT anyString 0 aliceSession 2%nat createBody dbCreated))
      /\ related (snd (PUT anyString 0 aliceSession 2%nat createBody dbCreated)))
  /\ (idsInUse (snd (DELETE false aliceSession 2%nat dbCreated))
      /\ related (snd (DELETE false aliceSession 2%nat dbCreated))).
Proof.
  apply (routes_keep_the_tables_in_order anyString 0 false aliceSession 2%nat
           createBody dbCreated).
  apply order_dbCreated.
Defined.

(** X13.  An edit stays within its application: whatever the request, a
    PUT leaves every other application, the users, the preferences, the
    reminders and the id counter as they were, adds events at the end
    only, and does not change the id or the owner of the application. *)
Theorem put_touches_one_application V now session id body db :
  onlyApplication id db (snd (PUT V now session id body db))
  /\ job_userId <$> jobApplications (snd (PUT V now session id body db)) !! id
     = job_userId <$> jobApplications db !! id
  /\ job_id <$> jobApplications (snd (PUT V now session id body db)) !! id
     = job_id <$> jobApplications db !! id.
Proof.
  destruct (PUT_cases V now session id body db) as [[_ ->]|H].
  - unfold onlyApplication. repeat split. exists []. rewrite app_nil_r. reflexivity.
  - destruct H as (userId & data & j & a & d & _ & _ & Hf & _ & _ & ->).
    apply findFirst_Some in Hf as [Hj _]. cbn [snd]. unfold onlyApplication.
    cbn [jobApplications users preferences reminders nextId applicationEvents].
    rewrite lookup_insert_eq, Hj. repeat split.
    + apply delete_insert_eq.
    + eauto.
Qed.

(** X14.  No edit clears a deadline: whatever the body carries in the
    deadline field, nothing, an empty string or a date, an application
    that had a deadline before a PUT has one after it. *)
Theorem put_never_clears_a_deadline V now session id body db :
  is_Some (jobApplications db !! id ≫= deadline) ->
  is_Some (jobApplications (snd (PUT V now session id body db)) !! id ≫= deadline).
Proof.
  intros Hd. destruct (PUT_cases V now session id body db) as [[_ ->]|H]; [exact Hd|].
  destruct H as (userId & data & j & a & d & _ & _ & Hf & _ & _ & ->).
  apply findFirst_Some in Hf as [Hj _]. rewrite Hj in Hd. cbn [snd jobApplications].
  rewrite lookup_insert_eq. cbn in *. destruct d; cbn; [eauto | exact Hd].
Qed.

(** Alice sends an empty deadline for an application that has one. *)
Lemma put_never_clears_a_deadline_witness :
  is_Some (jobApplications
             (snd (PUT anyString 0 aliceSession 2%nat
                     {| b_company := None; b_position := None; b_status := None;
                        b_appliedDate := DfAbsent; b_deadline := DfEmpty;
                        b_followUpReminder := DfAbsent; b_details := formDetails |}
                     dbDeadline)) !! 2%nat ≫= deadline).
Proof.
  apply put_never_clears_a_deadline. vm_compute. eauto.
Defined.

Lemma in_statuses st : existsb (String.eqb st) statuses = true -> nonEmpty st = true.
Proof. destruct st; [discriminate | reflexivity]. Qed.

(** X15.  An edit that goes through records a change of status and
    nothing else: when the body names a status other than the stored one,
    exactly one event is added, dated with the time of the request and
    titled with the new status; when it names the stored status or none,
    no event is added.  The stored status is the one named, or the old
    one. *)
Theorem status_change_is_recorded V now session id body j db :
  jobApplications db !! id = Some j ->
  res_status (fst (PUT V now session id body db)) = 200 ->
  applicationEvents (snd (PUT V now session id body db))
  = applicationEvents db
    ++ match b_status body with
       | Some st =>
           if String.eqb st (status j) then []
           else [ {| ev_jobApplicationId := id;
                     ev_title := "Status Changed to " +:+ st;
                     ev_description :=
                       "Application status updated to " +:+ replaceUnderscore st;
                     ev_eventDate := now;
                     ev_eventType := "status_change" |} ]
       | None => []
       end
  /\ status <$> jobApplications (snd (PUT V now session id body db)) !! id
     = Some (default (status j) (b_status body)).
Proof.
  intros Hj Hok.
  destruct (PUT_cases V now session id body db) as [[Herr _]|H]; [lia|].
  destruct H as (userId & data & j' & a & d & _ & Hschema & Hf & _ & _ & Hput).
  apply findFirst_Some in Hf as [Hj' _].
  assert (j' = j) as -> by congruence.
  rewrite Hput. cbn [snd applicationEvents jobApplications].
  rewrite lookup_insert_eq. cbn [fmap option_fmap option_map status updatedRow].
  unfold updateJobSchema in Hschema.
  destruct (_ && _) eqn:Hc in Hschema; [|discriminate]. injection Hschema as <-.
  apply andb_true_iff in Hc as [Hc _]. apply andb_true_iff in Hc as [_ Hst].
  unfold statusEvents. cbn [ud_status]. split; [|reflexivity].
  destruct (b_status body) as [st|]; [|reflexivity].
  cbn in Hst. rewrite (in_statuses st Hst). cbn [andb].
  destruct (String.eqb st (status j)); reflexivity.
Qed.

(** Alice moves her application to the status OFFER. *)
Lemma status_change_is_recorded_witness :
  applicationEvents
    (snd (PUT anyString 5 aliceSession 2%nat
            {| b_company := None; b_position := None; b_status := Some "OFFER"%string;
               b_appliedDate := DfAbsent; b_deadline := DfAbsent;
               b_followUpReminder := DfAbsent; b_details := formDetails |}
            dbCreated))
  = applicationEvents dbCreated
    ++ [ {| ev_jobApplicationId := 2%nat;
            ev_title := "Status Changed to OFFER";
            ev_description := "Application status updated to OFFER";
            ev_eventDate := 5;
            ev_eventType := "status_change" |} ]
  /\ status
       <$> jobApplications
             (snd (PUT anyString 5 aliceSession 2%nat
                     {| b_company := None; b_position := None;
                        b_status := Some "OFFER"%string;
                        b_appliedDate := DfAbsent; b_deadline := DfAbsent;
                        b_followUpReminder := DfAbsent; b_details := formDetails |}
                     dbCreated)) !! 2%nat
     = Some "OFFER"%string.
Proof.
  apply (status_change_is_recorded anyString 5 aliceSession 2%nat
           {| b_company := None; b_position := None; b_status := Some "OFFER"%string;
              b_appliedDate := DfAbsent; b_deadline := DfAbsent;
              b_followUpReminder := DfAbsent; b_details := formDetails |}
           aliceJob dbCreated);
    vm_compute; reflexivity.
Defined.

Lemma existsb_filter_out {A} (f : A -> bool) (l : list A) :
  existsb f (List.filter (fun x => negb (f x)) l) = false.
Proof.
  induction l as [|a l IH]; [reflexivity|]. cbn.
  destruct (f a) eqn:E; cbn; [exact IH|]. rewrite E, IH. reflexivity.
Qed.

(** X16.  A delete that is answered 200 removes the application and what
    hangs on it, and nothing else: the application can no longer be read,
    a second delete answers 404 and changes nothing, no event or reminder
    refers to it, and the other applications, events and reminders are as
    before. *)
Theorem deleted_application_is_gone cascade session id db :
  rep_status (fst (DELETE cascade session id db)) = 200 ->
  let db' := snd (DELETE cascade session id db) in
  JobItemRoute.GET session id db'
  = reply 404 (ErrorPayload "Job application not found")
  /\ DELETE cascade session id db'
     = (reply 404 (ErrorPayload "Job application not found"), db')
  /\ hasRelated id db' = false
  /\ jobApplications db' = delete id (jobApplications db)
  /\ applicationEvents db'
     = List.filter (fun e => negb (Nat.eqb (ev_jobApplicationId e) id))
         (applicationEvents db)
  /\ reminders db'
     = List.filter (fun r => negb (Nat.eqb (rem_jobApplicationId r) id))
         (reminders db).
Proof.
  intros Hok. cbv zeta.
  destruct (DELETE_cases cascade session id db) as [[Herr _]|H]; [lia|].
  destruct H as (userId & j & db' & Hs & _ & Hd & ->). cbn [snd].
  apply deleteJob_Some in Hd as (_ & _ & Hjobs & Hev & Hrem & _).
  assert (Hf : findFirst id userId db' = None).
  { unfold findFirst. rewrite Hjobs, lookup_delete_eq. reflexivity. }
  unfold JobItemRoute.GET, DELETE. rewrite Hs, Hf.
  split; [reflexivity|]. split; [reflexivity|]. split; [|auto].
  unfold hasRelated. rewrite Hev, Hrem.
  rewrite (existsb_filter_out (fun e => Nat.eqb (ev_jobApplicationId e) id)).
  rewrite (existsb_filter_out (fun r => Nat.eqb (rem_jobApplicationId r) id)).
  reflexivity.
Qed.

(** Alice deletes her application, the schema deleting what hangs on it. *)
Lemma deleted_application_is_gone_witness :
  let db' := snd (DELETE true aliceSession 2%nat dbCreated) in
  JobItemRoute.GET aliceSession 2%nat db'
  = reply 404 (ErrorPayload "Job application not found")
  /\ DELETE true aliceSession 2%nat db'
     = (reply 404 (ErrorPayload "Job application not found"), db')
  /\ hasRelated 2%nat db' = false
  /\ jobApplications db' = delete 2%nat (jobApplications dbCreated)
  /\ applicationEvents db'
     = List.filter (fun e => negb (Nat.eqb (ev_jobApplicationId e) 2%nat))
         (applicationEvents dbCreated)
  /\ reminders db'
     = List.filter (fun r => negb (Nat.eqb (rem_jobApplicationId r) 2%nat))
         (reminders dbCreated).
Proof.
  apply (deleted_application_is_gone true aliceSession 2%nat dbCreated).
  vm_compute. reflexivity.
Defined.

End MoreOfTheJobs.

(** ** The two forms around the routes *)

Section MoreOfTheForms.
Import JobsRoute JobItemRoute Forms Scenario Cases.

Lemma validDate_dateOfDay d :
  -719528 <= d <= 2932896 -> validDate (dateOfDay d) = true.
Proof.
  intros Hd. unfold validDate, dateOfDay. cbn [ds_year ds_month ds_day].
  set (t := d * msPerDay).
  pose proof (YearFromTime_spec t) as Hy. unfold t in Hy at 2 3.
  rewrite Day_of_day in Hy.
  assert (Hyear : 0 <= YearFromTime t <= 9999).
  { split.
    - destruct (Z_lt_le_dec (YearFromTime t) 0) as [Hlt|]; [|assumption].
      pose proof (DayFromYear_mono (YearFromTime t + 1) 0 ltac:(lia)) as Hm.
      change (DayFromYear 0) with (-719528) in Hm. lia.
    - destruct (Z_lt_le_dec 9999 (YearFromTime t)) as [Hlt|]; [|assumption].
      pose proof (DayFromYear_mono 10000 (YearFromTime t) ltac:(lia)) as Hm.
      change (DayFromYear 10000) with 2932897 in Hm. lia. }
  pose proof (MonthFromTime_range t) as Hm.
  pose proof (DateFromTime_range t) as Hdate.
  replace (MonthFromTime t + 1 - 1) with (MonthFromTime t) by lia.
  repeat (apply andb_true_iff; split); apply Z.leb_le; lia.
Qed.

(** Printing a time value as a date and reading the date back gives the
    midnight of its day. *)
Lemma newDate_of_printed t d :
  -719528 <= Day t <= 2932896 ->
  toISODate (Some t) = Some d -> newDate d = Some (Day t * msPerDay).
Proof.
  intros Hr. rewrite toISODate_day. intros [= <-].
  rewrite newDate_valid by (apply validDate_dateOfDay; exact Hr).
  rewrite dayNumber_dateOfDay. reflexivity.
Qed.

Lemma isoField_valid field :
  from_option (fun d => validDate d = true) True field ->
  isoField field
  = Some (from_option (fun d => DfDateTime (dayNumber d * msPerDay)) DfAbsent field).
Proof.
  destruct field as [d|]; cbn [from_option isoField]; [|reflexivity].
  intros Hd. rewrite (newDate_valid d Hd). reflexivity.
Qed.




(** X18.  From the effect to the table: when the new-application form is
    submitted with the date the effect put into the follow-up field (a
    host with a fixed offset, valid dates, 1 to 30 days), the POST answers
    201 and stores one reminder at UTC midnight of the date of the rule,
    and the applied date and the deadline at UTC midnight of their
    dates. *)
Theorem create_flow_stores_the_rule_date V now session userId offset prefs form
    applied position r db :
  session_id session = Some userId ->
  formSchema V form = true ->
  f_position form = Some position ->
  f_appliedDate form = Some applied ->
  validDate applied = true ->
  from_option (fun d => validDate d = true) True (f_deadline form) ->
  1 <= defaultFollowUpDays prefs <= 30 ->
  followUpEffect (fixedZone offset) (Some prefs) (Some applied) (f_deadline form)
  = SetFollowUpReminder r ->
  f_followUpReminder form = Some r ->
  validDate r = true ->
  exists body,
    newSubmitData form = Some body
    /\ res_status (fst (POST V now session body db)) = 201
    /\ reminders (snd (POST V now session body db))
       = reminders db
         ++ [ {| rem_jobApplicationId := nextId db;
                 rem_title := position +:+ " application";
                 rem_description := None;
                 rem_remindAt :=
                   midnight (ruleDate applied (f_deadline form)
                               (defaultFollowUpDays prefs));
                 rem_reminderType := "follow_up" |} ]
    /\ appliedDate <$> jobApplications (snd (POST V now session body db)) !! nextId db
       = Some (midnight applied)
    /\ deadline <$> jobApplications (snd (POST V now session body db)) !! nextId db
       = Some (midnight <$> f_deadline form).
Proof.
  intros Hs Hform Hpos Happ Hva Hvd Hn Heff Hfield Hvr.
  pose proof (dayNumber_valid_range applied Hva) as Hrange.
  rewrite followUpEffect_fixed in Heff by (try assumption; lia).
  injection Heff as Hr.
  unfold formSchema in Hform. rewrite Hpos in Hform.
  destruct (f_company form) as [c|] eqn:Hc; [|discriminate].
  assert (Hbody : newSubmitData form
          = Some {| b_company := Some c; b_position := Some position;
                    b_status := f_status form;
                    b_appliedDate := DfDateTime (midnight applied);
                    b_deadline :=
                      from_option (fun d => DfDateTime (dayNumber d * msPerDay))
                        DfAbsent (f_deadline form);
                    b_followUpReminder := DfDateTime (midnight r);
                    b_details := f_details form |}).
  { unfold newSubmitData, submitData. rewrite Happ, Hfield, Hc, Hpos.
    rewrite (isoField_valid (Some applied) Hva), (isoField_valid _ Hvd),
      (isoField_valid (Some r) Hvr). reflexivity. }
  eexists. split; [exact Hbody|].
  assert (Hschema : createJobSchema V
            {| b_company := Some c; b_position := Some position;
               b_status := f_status form;
               b_appliedDate := DfDateTime (midnight applied);
               b_deadline :=
                 from_option (fun d => DfDateTime (dayNumber d * msPerDay))
                   DfAbsent (f_deadline form);
               b_followUpReminder := DfDateTime (midnight r);
               b_details := f_details form |}
          = Some {| cd_company := c; cd_position := position;
                    cd_status := f_status form;
                    cd_appliedDate := Some (midnight applied);
                    cd_deadline := midnight <$> f_deadline form;
                    cd_followUpReminder := Some (midnight r);
                    cd_details := f_details form |}).
  { unfold createJobSchema.
    cbn [b_company b_position b_status b_appliedDate b_deadline b_followUpReminder
         b_details mbind option_bind optDateTime].
    destruct (f_deadline form) as [dl|]; cbn [from_option optDateTime mbind option_bind];
      rewrite Hform; reflexivity. }
  unfold POST. rewrite Hs, Hschema. cbn. rewrite lookup_insert_eq, <- Hr.
  repeat split.
Qed.

(** Alice's form of 2024-01-01 in a host at UTC+01:00. *)
Lemma create_flow_stores_the_rule_date_witness :
  exists body,
    newSubmitData newForm = Some body
    /\ res_status (fst (POST anyString 0 aliceSession body (dbWithDays 7))) = 201
    /\ reminders (snd (POST anyString 0 aliceSession body (dbWithDays 7)))
       = reminders (dbWithDays 7)
         ++ [ {| rem_jobApplicationId := nextId (dbWithDays 7);
                 rem_title := "Engineer" +:+ " application";
                 rem_description := None;
                 rem_remindAt :=
                   midnight (ruleDate (mkDateStr 2024 1 1) (f_deadline newForm)
                               (defaultFollowUpDays sevenDays));
                 rem_reminderType := "follow_up" |} ]
    /\ appliedDate
         <$> jobApplications (snd (POST anyString 0 aliceSession body (dbWithDays 7)))
             !! nextId (dbWithDays 7)
       = Some (midnight (mkDateStr 2024 1 1))
    /\ deadline
         <$> jobApplications (snd (POST anyString 0 aliceSession body (dbWithDays 7)))
             !! nextId (dbWithDays 7)
       = Some (midnight <$> f_deadline newForm).
Proof.
  apply (create_flow_stores_the_rule_date anyString 0 aliceSession 1%nat 3600000
           sevenDays newForm (mkDateStr 2024 1 1) "Engineer"%string
           (mkDateStr 2024 1 8) (dbWithDays 7));
    first [reflexivity | exact I | cbn; lia].
Defined.

(** X19.  The edit form saved as it was loaded: for the owner of an
    application whose loaded values pass the page's schema (dates in the
    years 0 to 9999), the PUT answers 200, adds no event, and stores the
    application as it was except that the applied date and the deadline
    are cut down to UTC midnight of their day, and every optional text
    column that was empty holds the empty string. *)
Theorem edit_form_saved_as_loaded V now session id j db :
  session_id session = Some (job_userId j) ->
  jobApplications db !! id = Some j ->
  formSchema V (resetForm j) = true ->
  nonEmpty (status j) = true ->
  -719528 <= Day (appliedDate j) <= 2932896 ->
  from_option (fun t => -719528 <= Day t <= 2932896) True (deadline j) ->
  exists body,
    submitData (resetForm j) = Some body
    /\ res_status (fst (PUT V now session id body db)) = 200
    /\ jobApplications (snd (PUT V now session id body db)) !! id
       = Some {| job_id := job_id j; job_userId := job_userId j;
                 company := company j; position := position j; status := status j;
                 appliedDate := Day (appliedDate j) * msPerDay;
                 deadline := (fun t => Day t * msPerDay) <$> deadline j;
                 details := f_details (resetForm j) |}
    /\ applicationEvents (snd (PUT V now session id body db)) = applicationEvents db.
Proof.
  intros Hs Hj Hform Hst Ha Hd.
  assert (Hfs : f_status (resetForm j) = Some (status j)).
  { unfold resetForm. cbn [f_status]. unfold nonEmpty in Hst.
    apply negb_true_iff in Hst. rewrite Hst. reflexivity. }
  assert (Hia : isoField (f_appliedDate (resetForm j))
                = Some (DfDateTime (Day (appliedDate j) * msPerDay))).
  { unfold resetForm, dateInput. cbn [f_appliedDate mbind option_bind isoField].
    rewrite toISODate_day. cbn [isoField].
    rewrite newDate_valid by (apply validDate_dateOfDay; exact Ha).
    rewrite dayNumber_dateOfDay. reflexivity. }
  assert (Hid : isoField (f_deadline (resetForm j))
                = Some (from_option (fun t => DfDateTime (Day t * msPerDay)) DfAbsent
                          (deadline j))).
  { unfold resetForm, dateInput. cbn [f_deadline].
    destruct (deadline j) as [t|]; cbn [mbind option_bind from_option] in *;
      [|reflexivity].
    rewrite toISODate_day. cbn [isoField].
    rewrite newDate_valid by (apply validDate_dateOfDay; exact Hd).
    rewrite dayNumber_dateOfDay. reflexivity. }
  assert (Hbody : submitData (resetForm j)
          = Some {| b_company := Some (company j); b_position := Some (position j);
                    b_status := Some (status j);
                    b_appliedDate := DfDateTime (Day (appliedDate j) * msPerDay);
                    b_deadline :=
                      from_option (fun t => DfDateTime (Day t * msPerDay)) DfAbsent
                        (deadline j);
                    b_followUpReminder := DfAbsent;
                    b_details := f_details (resetForm j) |}).
  { unfold submitData. rewrite Hia, Hid, Hfs. reflexivity. }
  eexists. split; [exact Hbody|].
  unfold formSchema in Hform. rewrite Hfs in Hform.
  cbn [resetForm f_company f_position] in Hform.
  pose proof Hform as Hform'.
  apply andb_true_iff in Hform' as [Hform' Hdet].
  apply andb_true_iff in Hform' as [Hform' Hstat].
  apply andb_true_iff in Hform' as [Hnc Hnp].
  assert (Hf : findFirst id (job_userId j) db = Some j)
    by (apply findFirst_Some; auto).
  unfold PUT. rewrite Hs. unfold updateJobSchema.
  cbn [b_company b_position b_status b_details optNonEmpty b_appliedDate b_deadline].
  rewrite Hnc, Hnp, Hstat, Hdet. cbn [andb]. rewrite Hf.
  cbn [ud_appliedDate ud_deadline ud_status ud_company ud_position ud_details
       dateUpdate].
  assert (Hdd : dateUpdate (from_option (fun t => DfDateTime (Day t * msPerDay))
                              DfAbsent (deadline j))
                = Some ((fun t => Day t * msPerDay) <$> deadline j))
    by (destruct (deadline j); reflexivity).
  rewrite Hdd, Hst, String.eqb_refl. cbn [andb negb fst snd res_status respond].
  split; [reflexivity|]. split; [|reflexivity].
  cbn [set_jobApplications jobApplications]. rewrite lookup_insert_eq.
  do 2 f_equal. destruct (deadline j); reflexivity.
Qed.

(** Alice's application, loaded and saved. *)
Lemma edit_form_saved_as_loaded_witness :
  exists body,
    submitData (resetForm aliceJob) = Some body
    /\ res_status (fst (PUT anyString 0 aliceSession 2%nat body dbCreated)) = 200
    /\ jobApplications (snd (PUT anyString 0 aliceSession 2%nat body dbCreated)) !! 2%nat
       = Some {| job_id := job_id aliceJob; job_userId := job_userId aliceJob;
                 company := company aliceJob; position := position aliceJob;
                 status := status aliceJob;
                 appliedDate := Day (appliedDate aliceJob) * msPerDay;
                 deadline := (fun t => Day t * msPerDay) <$> deadline aliceJob;
                 details := f_details (resetForm aliceJob) |}
    /\ applicationEvents (snd (PUT anyString 0 aliceSession 2%nat body dbCreated))
       = applicationEvents dbCreated.
Proof.
  apply (edit_form_saved_as_loaded anyString 0 aliceSession 2%nat aliceJob dbCreated);
    first [vm_compute; reflexivity | exact I | vm_compute; split; congruence].
Defined.

(** X20.  The values the edit page loads for an application stored
    without a job type or without a work location do not pass the page's
    schema, which the form uses as its resolver: the select holds the
    empty string, which is none of the values of the enum. *)
Theorem loaded_form_needs_both_selects V j :
  jobType (details j) = None \/ workLocation (details j) = None ->
  formSchema V (resetForm j) = false.
Proof.
  intros H. unfold formSchema, resetForm.
  cbn [f_company f_position f_status f_details].
  apply andb_false_iff. right. unfold detailsOk.
  cbn [jobUrl jobType workLocation priority contactEmail].
  assert (He : forall vals, optEnum vals (orEmpty None)
                            = existsb (String.eqb EmptyString) vals) by reflexivity.
  destruct H as [-> | ->]; rewrite He; cbn [existsb jobTypes workLocations String.eqb orb];
    rewrite ?andb_false_r; reflexivity.
Qed.

Lemma loaded_form_needs_both_selects_witness :
  formSchema anyString (resetForm apiJob) = false.
Proof. apply loaded_form_needs_both_selects. left. reflexivity. Defined.

End MoreOfTheForms.

(** ** The password reset *)

Section MoreOfTheReset.
Import PasswordReset Scenario Cases.

(** What the confirmation does, case by case: it answers 200 for an
    unused, unexpired token of an existing account and a password of at
    least six characters, and then sets the password of that account and
    marks the token; or it answers an error and writes nothing. *)
Lemma confirm_cases E now token password s :
  (400 <= rep_status (fst (confirm E now token password s))
   /\ snd (confirm E now token password s) = s)
  \/ exists t p rt,
       token = JsString t /\ password = JsString p
       /\ t <> EmptyString
       /\ (6 <= String.length p)%nat
       /\ resetTokens s !! t = Some rt
       /\ rt_used rt = false
       /\ now <= rt_expires rt
       /\ is_Some (users (base s) !! rt_email rt)
       /\ confirm E now token password s
          = (reply 200 (MessagePayload "Password reset successfully"),
             {| base := base s;
                passwords := <[rt_email rt := hash E p]> (passwords s);
                resetTokens :=
                  <[t := {| rt_email := rt_email rt; rt_expires := rt_expires rt;
                            rt_used := true |}]> (resetTokens s);
                outbox := outbox s |}).
Proof.
  unfold confirm.
  destruct (negb (truthy token) || negb (truthy password)) eqn:Hreq;
    [left; cbn; split; [lia|reflexivity]|].
  destruct (tooShort E password) eqn:Hshort; [left; cbn; split; [lia|reflexivity]|].
  destruct token as [| |b|q|t|o]; try (left; cbn; split; [lia|reflexivity]).
  destruct (resetTokens s !! t) as [rt|] eqn:Ht; [|left; cbn; split; [lia|reflexivity]].
  destruct (rt_used rt || (rt_expires rt <? now)) eqn:Hvalid;
    [left; cbn; split; [lia|reflexivity]|].
  destruct password as [| |b|q|p|o]; try (left; cbn; split; [lia|reflexivity]).
  destruct (users (base s) !! rt_email rt) as [u|] eqn:Hu;
    [|left; cbn; split; [lia|reflexivity]].
  right. exists t, p, rt.
  apply orb_false_elim in Hreq as [Htok _]. apply orb_false_elim in Hvalid as [Hused Hexp].
  cbn in Htok, Hshort. apply negb_false_iff, negb_true_iff in Htok.
  apply String.eqb_neq in Htok. apply Z.ltb_ge in Hshort, Hexp.
  repeat (split; [first [reflexivity | assumption | lia | eauto]|]). reflexivity.
Qed.

(** X21.  A reset token works once: after a confirmation that was
    answered 200, any confirmation with the same token, at any time and
    with any password, is answered 400 and changes nothing. *)
Theorem reset_token_works_once E now now' token password password' s :
  rep_status (fst (confirm E now token password s)) = 200 ->
  let s' := snd (confirm E now token password s) in
  rep_status (fst (confirm E now' token password' s')) = 400
  /\ snd (confirm E now' token password' s') = s'.
Proof.
  intros Hok. cbv zeta.
  destruct (confirm_cases E now token password s) as [[Herr _]|H]; [lia|].
  destruct H as (t & p & rt & -> & -> & Ht & _ & _ & _ & _ & _ & ->). cbn [snd].
  unfold confirm.
  assert (Htok : truthy (JsString t) = true).
  { cbn. apply negb_true_iff, String.eqb_neq. exact Ht. }
  rewrite Htok. cbn [negb orb].
  destruct (negb (truthy password')); [split; reflexivity|].
  destruct (tooShort E password'); [split; reflexivity|].
  cbn [resetTokens]. rewrite lookup_insert_eq. cbn [rt_used orb].
  split; reflexivity.
Qed.

(** Alice uses her token, and it is tried again with another password. *)
Lemma reset_token_works_once_witness :
  let s' := snd (confirm plainEnv 2000 (JsString "c0ffee") (JsString "secret1")
                   authAsked) in
  rep_status (fst (confirm plainEnv 3000 (JsString "c0ffee") (JsString "secret2") s'))
  = 400
  /\ snd (confirm plainEnv 3000 (JsString "c0ffee") (JsString "secret2") s') = s'.
Proof.
  apply (reset_token_works_once plainEnv 2000 3000 (JsString "c0ffee")
           (JsString "secret1") (JsString "secret2") authAsked).
  vm_compute. reflexivity.
Defined.





(** X24.  A confirmation writes one password or nothing: either it is
    answered with an error and the store is as before, or it is answered
    200, the token was stored, unused and not past its time, the new
    password has at least six characters, and the one change besides the
    mark on the token is the password of the account the token was made
    for. *)
Theorem confirmation_writes_one_password E now token password s :
  (400 <= rep_status (fst (confirm E now token password s))
   /\ snd (confirm E now token password s) = s)
  \/ exists t p rt,
       token = JsString t /\ password = JsString p
       /\ (6 <= String.length p)%nat
       /\ resetTokens s !! t = Some rt
       /\ rt_used rt = false /\ now <= rt_expires rt
       /\ rep_status (fst (confirm E now token password s)) = 200
       /\ passwords (snd (confirm E now token password s))
          = <[rt_email rt := hash E p]> (passwords s)
       /\ delete t (resetTokens (snd (confirm E now token password s)))
          = delete t (resetTokens s)
       /\ base (snd (confirm E now token password s)) = base s
       /\ outbox (snd (confirm E now token password s)) = outbox s.
Proof.
  destruct (confirm_cases E now token password s) as [H|H]; [left; exact H|].
  destruct H as (t & p & rt & Ht & Hp & _ & Hlen & Hrow & Hused & Hexp & _ & Hc).
  right. exists t, p, rt. rewrite Hc. cbn.
  repeat (split; [assumption || reflexivity|]).
  split; [apply delete_insert_eq|]. split; reflexivity.
Qed.

(** X25.  What the reset page sends is not turned down for its form:
    when [handleSubmit] sends, the two passwords typed are the same, and
    the route goes on to look the token up, so that its answer is neither
    that token and password are required nor that the password is too
    short. *)
Theorem reset_page_sends_what_the_route_takes E now token password confirmPassword
    t p s :
  handleSubmit token password confirmPassword = Send t p ->
  t = token /\ p = password /\ password = confirmPassword
  /\ rep_payload (fst (confirm E now (JsString t) (JsString p) s))
     <> ErrorPayload "Token and password are required"
  /\ rep_payload (fst (confirm E now (JsString t) (JsString p) s))
     <> ErrorPayload "Password must be at least 6 characters".
Proof.
  unfold handleSubmit.
  destruct (String.eqb token EmptyString) eqn:Htok; [discriminate|].
  destruct (String.eqb password confirmPassword) eqn:Hsame; [|discriminate].
  cbn [negb]. destruct (String.length password <? 6)%nat eqn:Hlen; [discriminate|].
  intros [= <- <-]. apply String.eqb_eq in Hsame. apply Nat.ltb_ge in Hlen.
  do 3 (split; [first [reflexivity | assumption]|]).
  unfold confirm. cbn [truthy]. rewrite Htok.
  replace (String.eqb password EmptyString) with false
    by (symmetry; destruct password; [cbn in Hlen; lia | reflexivity]).
  replace (tooShort E (JsString password)) with false
    by (symmetry; cbn; apply Z.ltb_ge; lia).
  cbn [negb orb].
  destruct (resetTokens s !! token) as [rt|]; [|split; discriminate].
  destruct (rt_used rt || _); [split; discriminate|].
  destruct (users (base s) !! rt_email rt); split; discriminate.
Qed.

Lemma reset_page_sends_what_the_route_takes_witness :
  "c0ffee"%string = "c0ffee"%string /\ "secret1"%string = "secret1"%string
  /\ "secret1"%string = "secret1"%string
  /\ rep_payload (fst (confirm plainEnv 2000 (JsString "c0ffee") (JsString "secret1")
                         authAsked))
     <> ErrorPayload "Token and password are required"
  /\ rep_payload (fst (confirm plainEnv 2000 (JsString "c0ffee") (JsString "secret1")
                         authAsked))
     <> ErrorPayload "Password must be at least 6 characters".
Proof.
  apply (reset_page_sends_what_the_route_takes plainEnv 2000 "c0ffee" "secret1"
           "secret1" "c0ffee" "secret1" authAsked).
  reflexivity.
Defined.

End MoreOfTheReset.
